(** * dlt.config.optim: optimizer, scheduler and checkpoint factories

    A shallow embedding of [src/dlt/config/optim.py].  The four functions of
    the module are glue code around three collaborators: the option parser
    ([fetch_opts], [parse.optimizers]), the numerical library ([torch.optim]
    and its [lr_scheduler]) and the [Checkpointer] utility.  The embedding
    keeps the module's own control flow (validation, dispatch, the [or]
    defaults, the writes to [param_groups[0]['lr']], the prints) and takes the
    collaborators as parameters of a [Section]. *)

From Stdlib Require Import ZArith QArith String List Bool Lia.
From stdpp Require Import base option list strings gmap.

Local Open Scope string_scope.
Local Open Scope list_scope.

(** ** Python values *)

(** The values the module handles.  A finite float is the rational it
    denotes ([-0.0] is [0]), and [PyNaN] and [PyInf] are the other floats:
    the module tests floats for truth and with [!=] and formats them, it
    never computes with them.  [PyObj id truth] is an object of a class that
    keeps the default [__eq__] (identity) and [__format__], with the truth
    value its [__bool__] or [__len__] gives it. *)
Inductive pyval : Type :=
| PyNone
| PyBool (b : bool)
| PyInt (z : Z)
| PyFloat (q : Q)
| PyNaN
| PyInf (negative : bool)
| PyStr (s : string)
| PyObj (id : nat) (truth : bool).

(** The value of a finite Python number ([bool] is a subclass of [int]). *)
Definition py_number (v : pyval) : option Q :=
  match v with
  | PyBool b => Some (inject_Z (if b then 1%Z else 0%Z))
  | PyInt z => Some (inject_Z z)
  | PyFloat q => Some q
  | _ => None
  end.

(** [bool(v)]: the truth value Python's [or] and [if] test. *)
Definition truthy (v : pyval) : bool :=
  match v with
  | PyNone => false
  | PyBool b => b
  | PyInt z => negb (z =? 0)%Z
  | PyFloat q => negb (Qeq_bool q 0%Q)
  | PyNaN => true
  | PyInf _ => true
  | PyStr s => negb (String.eqb s EmptyString)
  | PyObj _ truth => truth
  end.

(** [a or b] *)
Definition py_or (a b : pyval) : pyval := if truthy a then a else b.

(** [a == b]: finite numbers compare by value across [bool], [int] and
    [float], an infinity equals the infinity of its sign only, NaN equals
    nothing, not even itself; strings compare by content, [None] equals
    itself, other objects compare by identity. *)
Definition py_eq (a b : pyval) : bool :=
  match py_number a, py_number b with
  | Some x, Some y => Qeq_bool x y
  | _, _ =>
      match a, b with
      | PyNone, PyNone => true
      | PyInf s, PyInf t => Bool.eqb s t
      | PyStr s, PyStr t => String.eqb s t
      | PyObj i _, PyObj j _ => Nat.eqb i j
      | _, _ => false
      end
  end.

(** [a != b] *)
Definition py_ne (a b : pyval) : bool := negb (py_eq a b).

(** Whether ['{:.2e}'.format(v)] returns: it does for a float and for an
    [int] (a [bool] too) that converts to a float, that is one below
    [2**1024 - 2**970] in magnitude. *)
Definition formats (v : pyval) : bool :=
  match v with
  | PyBool _ | PyFloat _ | PyNaN | PyInf _ => true
  | PyInt z => (Z.abs z <? 2 ^ 1024 - 2 ^ 970)%Z
  | PyNone | PyStr _ | PyObj _ _ => false
  end.

(** ** Exceptions *)

(** Exceptions raised by the module's own statements, and [External] for one
    raised inside a collaborator and propagated unchanged. *)
Inductive exn (E : Type) : Type :=
| ValueError (msg : string)
| TypeError
| OverflowError
| UnboundLocalError (var : string)
| NameError (var : string)
| KeyError (key : string)
| IndexError
| External (e : E).
Arguments ValueError {E} msg.
Arguments TypeError {E}.
Arguments OverflowError {E}.
Arguments UnboundLocalError {E} var.
Arguments NameError {E} var.
Arguments KeyError {E} key.
Arguments IndexError {E}.
Arguments External {E} e.

Definition is_external {E} (e : exn E) : bool :=
  match e with External _ => true | _ => false end.

(** The exception of ['{:.2e}'.format(v)] when it does not return. *)
Definition format_error {E} (v : pyval) : exn E :=
  match v with
  | PyStr _ => ValueError "Unknown format code 'e' for object of type 'str'"
  | PyInt _ => OverflowError
  | _ => TypeError
  end.

(** A Python exception raised inside a collaborator: its class and its
    message. *)
Record py_exception : Type := {
  exc_class : string;
  exc_message : string
}.

Inductive outcome (E A : Type) : Type :=
| Return (a : A)
| Raise (e : exn E).
Arguments Return {E A} a.
Arguments Raise {E A} e.

(** ** Configuration *)

(** [subset]: [None], a string, or a dict from category to subset name. *)
Inductive subset_t : Type :=
| SubsetVal (v : pyval)
| SubsetDict (d : gmap string pyval).

(** The namespace returned by [fetch_opts], with the fields the module
    reads.  Hyper-parameters are passed on without being inspected. *)
Record Opts : Type := {
  opt_optimizer : string;
  opt_lr : pyval;
  opt_momentum : pyval;
  opt_dampening : pyval;
  opt_beta1 : pyval;
  opt_beta2 : pyval;
  opt_weight_decay : pyval;
  opt_rho : pyval;
  opt_optim_eps : pyval;
  opt_lr_decay : pyval;
  opt_alpha : pyval;
  opt_centered : pyval;
  opt_lr_schedule : string;
  opt_lr_step_size : pyval;
  opt_lr_patience : pyval;
  opt_lr_cooldown : pyval;
  opt_lr_ratio : pyval;
  opt_lr_min : pyval;
  opt_experiment_name : string;
  opt_save_path : string
}.

(** Modelled from the spec: [parse.optimizers] is set in [dlt/config/opts.py],
    which is not part of the sources at hand; the specification names the
    seven recognized optimizers. *)
Definition parse_optimizers : list string :=
  ["adam"; "sgd"; "adadelta"; "adagrad"; "sparseadam"; "adamax"; "rmsprop"].

(** [x in l] for a list of strings. *)
Definition py_in (x : string) (l : list string) : bool :=
  existsb (String.eqb x) l.

(** ** Model, optimizer and library calls *)

Record Param : Type := {
  param_id : nat;
  requires_grad : bool
}.

(** An [nn.Module], as far as the module looks at it: [model.parameters()]. *)
Record NNModule : Type := { parameters : list Param }.

(** A constructor call of [torch.optim], with its keyword arguments. *)
Inductive optim_call : Type :=
| Adam (params : list Param) (lr : pyval) (betas : pyval * pyval)
       (weight_decay : pyval)
| SGD (params : list Param) (lr momentum dampening weight_decay : pyval)
| Adadelta (params : list Param) (lr rho eps weight_decay : pyval)
| Adagrad (params : list Param) (lr lr_decay weight_decay : pyval)
| SparseAdam (params : list Param) (lr : pyval) (betas : pyval * pyval)
             (eps : pyval)
| Adamax (params : list Param) (lr : pyval) (betas : pyval * pyval)
         (eps weight_decay : pyval)
| RMSprop (params : list Param) (lr alpha eps weight_decay momentum
           centered : pyval).

Definition optim_params (c : optim_call) : list Param :=
  match c with
  | Adam p _ _ _ | SGD p _ _ _ _ | Adadelta p _ _ _ _ | Adagrad p _ _ _
  | SparseAdam p _ _ _ | Adamax p _ _ _ _ | RMSprop p _ _ _ _ _ _ => p
  end.

(** A constructor call of [torch.optim.lr_scheduler]. *)
Inductive sched_call : Type :=
| ReduceLROnPlateau (mode : string) (factor threshold patience : pyval)
                    (verbose : bool) (threshold_mode : string)
                    (cooldown min_lr eps : pyval)
| StepLR (step_size gamma : pyval).

(** What the module sends to standard output.  A message records the values
    its text is made of, not their digits: the module formats them (see
    [format_rate]) before it prints.  [name] is [None] for the empty suffix
    and [Some v] for [' ({0})'] filled with [v]. *)
Inductive message : Type :=
| LrChanged (name : option pyval) (current_lr new_lr : pyval)
| LrInitialized (name : option pyval) (lr : pyval).

(** Modelled from the spec: [Checkpointer] lives in [dlt/util], which is not
    part of the sources at hand.  An object records the arguments it was
    built with; [load] returns the value persisted under its name in its
    directory when a checkpoint exists, and [None] otherwise. *)
Record Checkpointer : Type := {
  chk_name : string;
  chk_directory : string;
  chk_overwrite : bool;
  chk_timestamp : bool;
  chk_add_count : bool
}.

(** ** The world and the collaborators *)

(** A [torch.optim.Optimizer]: [param_groups] is a list of dicts;
    [torch_state] is what the library keeps behind the object (buffers, the
    counters of the schedules attached to it). *)
Record Optimizer (TorchState : Type) : Type := {
  param_groups : list (gmap string pyval);
  torch_state : TorchState
}.
Arguments param_groups {TorchState} o.
Arguments torch_state {TorchState} o.

(** Calls into the numerical library, in the order they are made. *)
Inductive lib_call (Scheduler : Type) : Type :=
| CallOptim (c : optim_call)
| CallScheduler (c : sched_call)
| CallStep (s : Scheduler) (metric : option pyval).
Arguments CallOptim {Scheduler} c.
Arguments CallScheduler {Scheduler} c.
Arguments CallStep {Scheduler} s metric.

(** Python passes [model] and [optimizer] by reference: the two objects live
    in the world, where the functions and the closure reach them.  [w_files]
    maps a directory and a checkpoint name to the value stored, [w_stdout]
    is what the module itself printed, and [w_calls] records its calls into
    the numerical library. *)
Record World (TorchState Scheduler : Type) : Type := {
  w_model : NNModule;
  w_optimizer : Optimizer TorchState;
  w_files : gmap (string * string) pyval;
  w_stdout : list message;
  w_calls : list (lib_call Scheduler)
}.
Arguments w_model {TorchState Scheduler} w.
Arguments w_optimizer {TorchState Scheduler} w.
Arguments w_files {TorchState Scheduler} w.
Arguments w_stdout {TorchState Scheduler} w.
Arguments w_calls {TorchState Scheduler} w.

(** The collaborators, with [E] the exceptions they raise:
    - [fetch_opts(categories, subset)] of [dlt/config/opts.py];
    - the constructors of [torch.optim];
    - the constructors of [torch.optim.lr_scheduler], which take the
      optimizer and may write to it;
    - [s.step(metric)] and [s.step()], which leave the optimizer as they
      made it also when they raise. *)
Class Collaborators (E TorchState Scheduler : Type) : Type := {
  fetch_opts : list string -> subset_t -> E + Opts;
  torch_optim : optim_call -> E + Optimizer TorchState;
  lr_scheduler :
    sched_call -> Optimizer TorchState ->
    (E + Scheduler) * Optimizer TorchState;
  scheduler_step :
    Scheduler -> option pyval -> Optimizer TorchState ->
    (E + unit) * Optimizer TorchState
}.

Section Optim.

Context {E TorchState Scheduler : Type}.
Context `{Lib : !Collaborators E TorchState Scheduler}.

(** *** State and exceptions *)

Definition M (A : Type) : Type :=
  World TorchState Scheduler -> outcome E A * World TorchState Scheduler.

Definition ret {A} (a : A) : M A := fun w => (Return a, w).

Definition raise {A} (e : exn E) : M A := fun w => (Raise e, w).

Definition bind {A B} (c : M A) (k : A -> M B) : M B :=
  fun w =>
    match c w with
    | (Return a, w') => k a w'
    | (Raise e, w') => (Raise e, w')
    end.

Notation "'let*' x ':=' c 'in' k" := (bind c (fun x => k))
  (at level 10, x name, c at level 100, k at level 200).

(** The result of a collaborator: its exception propagates. *)
Definition extern {A} (r : E + A) : outcome E A :=
  match r with
  | inl e => Raise (External e)
  | inr a => Return a
  end.

Definition set_optimizer (o : Optimizer TorchState)
  (w : World TorchState Scheduler) : World TorchState Scheduler :=
  {| w_model := w_model w; w_optimizer := o; w_files := w_files w;
     w_stdout := w_stdout w; w_calls := w_calls w |}.

Definition log_call (c : lib_call Scheduler)
  (w : World TorchState Scheduler) : World TorchState Scheduler :=
  {| w_model := w_model w; w_optimizer := w_optimizer w;
     w_files := w_files w; w_stdout := w_stdout w;
     w_calls := w_calls w ++ [c] |}.

(** The field [{:.2e}] of a message, filled with [v]: the format raises for
    what is no number, and for an [int] too large for a float. *)
Definition format_rate (v : pyval) : M unit :=
  if formats v then ret tt else raise (format_error v).

(** [print(msg)], the text of [msg] being formatted already. *)
Definition print (msg : message) : M unit :=
  fun w =>
    (Return tt,
     {| w_model := w_model w; w_optimizer := w_optimizer w;
        w_files := w_files w; w_stdout := w_stdout w ++ [msg];
        w_calls := w_calls w |}).

Definition call_fetch_opts (categories : list string) (subset : subset_t)
  : M Opts :=
  fun w => (extern (fetch_opts categories subset), w).

(** [model.parameters()] *)
Definition model_parameters : M (list Param) :=
  fun w => (Return (parameters (w_model w)), w).

Definition call_optim (c : optim_call) : M (Optimizer TorchState) :=
  fun w => (extern (torch_optim c), log_call (CallOptim c) w).

Definition call_lr_scheduler (c : sched_call) : M Scheduler :=
  fun w =>
    let '(r, o) := lr_scheduler c (w_optimizer w) in
    (extern r, set_optimizer o (log_call (CallScheduler c) w)).

Definition call_step (s : Scheduler) (metric : option pyval) : M unit :=
  fun w =>
    let '(r, o) := scheduler_step s metric (w_optimizer w) in
    (extern r, set_optimizer o (log_call (CallStep s metric) w)).

(** [optimizer.param_groups[0]['lr']] *)
Definition get_lr : M pyval :=
  fun w =>
    match param_groups (w_optimizer w) !! 0%nat with
    | None => (Raise IndexError, w)
    | Some g =>
        match g !! "lr" with
        | None => (Raise (KeyError "lr"), w)
        | Some v => (Return v, w)
        end
    end.

(** [optimizer.param_groups[0]['lr'] = lr] *)
Definition set_lr (lr : pyval) : M unit :=
  fun w =>
    match param_groups (w_optimizer w) !! 0%nat with
    | None => (Raise IndexError, w)
    | Some g =>
        (Return tt,
         set_optimizer
           {| param_groups :=
                <[0%nat := <["lr" := lr]> g]> (param_groups (w_optimizer w));
              torch_state := torch_state (w_optimizer w) |} w)
    end.

(** [subset['optimizer'] if isinstance(subset, dict) else subset] *)
Definition subset_name (subset : subset_t) : M pyval :=
  match subset with
  | SubsetDict d =>
      match d !! "optimizer" with
      | Some v => ret v
      | None => raise (KeyError "optimizer")
      end
  | SubsetVal v => ret v
  end.

(** [' ({0})'.format(name) if name else ''] *)
Definition name_suffix (name : pyval) : option pyval :=
  if truthy name then Some name else None.

(** Modelled from the spec: [Checkpointer.load()] returns the value
    persisted for the checkpointer, and [None] when there is none. *)
Definition load (c : Checkpointer) : M pyval :=
  fun w =>
    (Return (default PyNone (w_files w !! (chk_directory c, chk_name c))), w).

(** *** optimizer *)

(** The body of [optimizer], for the value [optimizers] of
    [parse.optimizers]. *)
Definition optimizer_with (optimizers : list string) (subset : subset_t)
  : M (Optimizer TorchState) :=
  let* opts := call_fetch_opts ["optimizer"] subset in
  if negb (py_in (opt_optimizer opts) optimizers) then
    raise (ValueError
             ("Optimizer " +:+ opt_optimizer opts +:+ " not available."))
  else
    let* all_params := model_parameters in
    let grad_params := List.filter requires_grad all_params in
    if String.eqb (opt_optimizer opts) "adam" then
      call_optim (Adam grad_params (opt_lr opts)
                    (opt_beta1 opts, opt_beta2 opts) (opt_weight_decay opts))
    else if String.eqb (opt_optimizer opts) "sgd" then
      call_optim (SGD grad_params (opt_lr opts) (opt_momentum opts)
                    (opt_dampening opts) (opt_weight_decay opts))
    else if String.eqb (opt_optimizer opts) "adadelta" then
      call_optim (Adadelta grad_params (opt_lr opts) (opt_rho opts)
                    (opt_optim_eps opts) (opt_weight_decay opts))
    else if String.eqb (opt_optimizer opts) "adagrad" then
      call_optim (Adagrad grad_params (opt_lr opts) (opt_lr_decay opts)
                    (opt_weight_decay opts))
    else if String.eqb (opt_optimizer opts) "sparseadam" then
      call_optim (SparseAdam grad_params (opt_lr opts)
                    (opt_beta1 opts, opt_beta2 opts) (opt_optim_eps opts))
    else if String.eqb (opt_optimizer opts) "adamax" then
      call_optim (Adamax grad_params (opt_lr opts)
                    (opt_beta1 opts, opt_beta2 opts) (opt_optim_eps opts)
                    (opt_weight_decay opts))
    else if String.eqb (opt_optimizer opts) "rmsprop" then
      call_optim (RMSprop grad_params (opt_lr opts) (opt_alpha opts)
                    (opt_optim_eps opts) (opt_weight_decay opts)
                    (opt_momentum opts) (opt_centered opts))
    else
      (* [return ret_optimizer] with no branch taken *)
      raise (UnboundLocalError "ret_optimizer").

Definition optimizer (subset : subset_t) : M (Optimizer TorchState) :=
  optimizer_with parse_optimizers subset.

(** *** scheduler *)

(** The three bodies of [schedule_fn]. *)
Inductive schedule_fn : Type :=
| fn_plateau (ret_scheduler : Scheduler)
| fn_step (ret_scheduler : Scheduler)
| fn_none.

(** The closure [schedule_step]: it captures the cell of [schedule_fn],
    which stays unbound when no branch defined it, and [subset]; the
    captured [optimizer] is the one of the world. *)
Record schedule_step : Type := {
  env_schedule_fn : option schedule_fn;
  env_subset : subset_t
}.

Definition scheduler (subset : subset_t) : M schedule_step :=
  let* opts := call_fetch_opts ["scheduler"] subset in
  let* cell :=
    if String.eqb (opt_lr_schedule opts) "plateau" then
      let* ret_scheduler :=
        call_lr_scheduler
          (ReduceLROnPlateau "min" (opt_lr_ratio opts)
             (PyFloat (1 # 10000)) (opt_lr_patience opts) true "rel"
             (opt_lr_cooldown opts) (opt_lr_min opts)
             (PyFloat (1 # 100000000))) in
      ret (Some (fn_plateau ret_scheduler))
    else if String.eqb (opt_lr_schedule opts) "step" then
      let* ret_scheduler :=
        call_lr_scheduler
          (StepLR (opt_lr_step_size opts) (opt_lr_ratio opts)) in
      ret (Some (fn_step ret_scheduler))
    else if String.eqb (opt_lr_schedule opts) "none" then
      ret (Some fn_none)
    else
      ret None in
  ret {| env_schedule_fn := cell; env_subset := subset |}.

(** [schedule_fn(metric)] *)
Definition call_schedule_fn (f : schedule_fn) (metric : pyval) : M unit :=
  match f with
  | fn_plateau ret_scheduler => call_step ret_scheduler (Some metric)
  | fn_step ret_scheduler => call_step ret_scheduler None
  | fn_none => ret tt
  end.

(** [schedule_step(metric)] *)
Definition call_schedule_step (c : schedule_step) (metric : pyval) : M unit :=
  let* current_lr := get_lr in
  let* _ :=
    match env_schedule_fn c with
    | Some f => call_schedule_fn f metric
    | None => raise (NameError "schedule_fn")
    end in
  let* new_lr := get_lr in
  if py_ne new_lr current_lr then
    let* name := subset_name (env_subset c) in
    let* _ := format_rate current_lr in
    let* _ := format_rate new_lr in
    print (LrChanged (name_suffix name) current_lr new_lr)
  else
    ret tt.

(** *** epoch_checkpointer and lr_checkpointer *)

Definition epoch_checkpointer (subset : subset_t)
  : M (Checkpointer * pyval) :=
  let* opts := call_fetch_opts ["general"] subset in
  let epoch_chkp :=
    {| chk_name := "epoch_" +:+ opt_experiment_name opts;
       chk_directory := opt_save_path opts;
       chk_overwrite := true; chk_timestamp := false;
       chk_add_count := false |} in
  let* loaded := load epoch_chkp in
  let current_epoch := py_or loaded (PyInt 1) in
  ret (epoch_chkp, current_epoch).

Definition lr_checkpointer (subset : subset_t) : M Checkpointer :=
  let* opts := call_fetch_opts ["general"; "optimizer"] subset in
  let lr_chkp :=
    {| chk_name := "lr_" +:+ opt_experiment_name opts;
       chk_directory := opt_save_path opts;
       chk_overwrite := true; chk_timestamp := false;
       chk_add_count := false |} in
  let* loaded := load lr_chkp in
  let lr := py_or loaded (opt_lr opts) in
  let* _ := set_lr lr in
  let* name := subset_name subset in
  let* _ := format_rate lr in
  let* _ := print (LrInitialized (name_suffix name) lr) in
  ret lr_chkp.

End Optim.

(** ** Predicates and tables used by the statements *)

(** The optimizer has a first parameter group with an ['lr'] entry, as every
    optimizer built by the library has. *)
Definition has_lr {TorchState} (o : Optimizer TorchState) : bool :=
  match param_groups o !! 0%nat with
  | Some g => bool_decide (is_Some (g !! "lr"))
  | None => false
  end.

(** The optimizer has a first parameter group whose ['lr'] entry is a number
    [{:.2e}] formats. *)
Definition has_number_lr {TorchState} (o : Optimizer TorchState) : bool :=
  match param_groups o !! 0%nat with
  | Some g =>
      match g !! "lr" with
      | Some v => formats v
      | None => false
      end
  | None => false
  end.

(** [subset] names the optimizer when it is a dict. *)
Definition names_optimizer (subset : subset_t) : bool :=
  match subset with
  | SubsetDict d => bool_decide (is_Some (d !! "optimizer"))
  | SubsetVal _ => true
  end.

(** The dispatch table as the specification words it: the selector, and the
    constructor with the configuration fields as its named parameters. *)
Definition optimizer_table (opts : Opts) (grad_params : list Param)
  : list (string * optim_call) :=
  [ ("adam",
     Adam grad_params (opt_lr opts) (opt_beta1 opts, opt_beta2 opts)
       (opt_weight_decay opts));
    ("sgd",
     SGD grad_params (opt_lr opts) (opt_momentum opts) (opt_dampening opts)
       (opt_weight_decay opts));
    ("adadelta",
     Adadelta grad_params (opt_lr opts) (opt_rho opts) (opt_optim_eps opts)
       (opt_weight_decay opts));
    ("adagrad",
     Adagrad grad_params (opt_lr opts) (opt_lr_decay opts)
       (opt_weight_decay opts));
    ("sparseadam",
     SparseAdam grad_params (opt_lr opts) (opt_beta1 opts, opt_beta2 opts)
       (opt_optim_eps opts));
    ("adamax",
     Adamax grad_params (opt_lr opts) (opt_beta1 opts, opt_beta2 opts)
       (opt_optim_eps opts) (opt_weight_decay opts));
    ("rmsprop",
     RMSprop grad_params (opt_lr opts) (opt_alpha opts) (opt_optim_eps opts)
       (opt_weight_decay opts) (opt_momentum opts) (opt_centered opts)) ].

(** The checkpointer [Checkpointer(prefix + experiment_name,
    directory=save_path, overwrite=True, timestamp=False, add_count=False)]. *)
Definition checkpointer_for (prefix : string) (opts : Opts) : Checkpointer :=
  {| chk_name := prefix +:+ opt_experiment_name opts;
     chk_directory := opt_save_path opts;
     chk_overwrite := true; chk_timestamp := false; chk_add_count := false |}.

(** The value persisted for a checkpointer, if any. *)
Definition persisted {TorchState Scheduler} (c : Checkpointer)
  (w : World TorchState Scheduler) : option pyval :=
  w_files w !! (chk_directory c, chk_name c).

(** ** A small library to run the module against *)

Module Demo.

Definition opts (optimizer_name lr_schedule : string) : Opts :=
  {| opt_optimizer := optimizer_name;
     opt_lr := PyFloat (1 # 1000);
     opt_momentum := PyFloat (9 # 10);
     opt_dampening := PyInt 0;
     opt_beta1 := PyFloat (9 # 10);
     opt_beta2 := PyFloat (99 # 100);
     opt_weight_decay := PyInt 0;
     opt_rho := PyFloat (9 # 10);
     opt_optim_eps := PyFloat (1 # 100000000);
     opt_lr_decay := PyInt 0;
     opt_alpha := PyFloat (99 # 100);
     opt_centered := PyBool false;
     opt_lr_schedule := lr_schedule;
     opt_lr_step_size := PyInt 30;
     opt_lr_patience := PyInt 10;
     opt_lr_cooldown := PyInt 0;
     opt_lr_ratio := PyFloat (1 # 10);
     opt_lr_min := PyFloat (1 # 1000000);
     opt_experiment_name := "run";
     opt_save_path := "out" |}.

Definition lr_of (c : optim_call) : pyval :=
  match c with
  | Adam _ lr _ _ | SGD _ lr _ _ _ | Adadelta _ lr _ _ _ | Adagrad _ lr _ _
  | SparseAdam _ lr _ _ | Adamax _ lr _ _ _ | RMSprop _ lr _ _ _ _ _ => lr
  end.

(** A new optimizer has one group holding the learning rate; its private
    state counts the steps taken. *)
Definition new_optimizer (c : optim_call) : Optimizer nat :=
  {| param_groups := [ {[ "lr" := lr_of c ]} ]; torch_state := 0%nat |}.

(** A step divides every numeric learning rate by ten. *)
Definition decay (g : gmap string pyval) : gmap string pyval :=
  match g !! "lr" with
  | Some v =>
      match py_number v with
      | Some q => <["lr" := PyFloat (Qred (q * (1 # 10)))]> g
      | None => g
      end
  | None => g
  end.

Definition step (s : sched_call) (metric : option pyval) (o : Optimizer nat)
  : (string + unit) * Optimizer nat :=
  (inr tt,
   {| param_groups := decay <$> param_groups o;
      torch_state := S (torch_state o) |}).

(** The schedule object is the call that built it. *)
Definition library (o : Opts) : Collaborators string nat sched_call :=
  {| fetch_opts := fun _ _ => inr o;
     torch_optim := fun c => inr (new_optimizer c);
     lr_scheduler := fun c opt => (inr c, opt);
     scheduler_step := step |}.

Definition model : NNModule :=
  {| parameters :=
       [ {| param_id := 0; requires_grad := true |};
         {| param_id := 1; requires_grad := false |};
         {| param_id := 2; requires_grad := true |} ] |}.

Definition group0 : gmap string pyval :=
  {[ "lr" := PyFloat (1 # 100); "momentum" := PyFloat (9 # 10) ]}.

Definition group1 : gmap string pyval := {[ "lr" := PyFloat (1 # 2) ]}.

(** A world with the given checkpoint files. *)
Definition world (files : gmap (string * string) pyval)
  : World nat sched_call :=
  {| w_model := model;
     w_optimizer :=
       {| param_groups := [group0; group1]; torch_state := 0%nat |};
     w_files := files;
     w_stdout := [];
     w_calls := [] |}.

(** The default [subset=None]. *)
Definition no_subset : subset_t := SubsetVal PyNone.

(** A dict [subset] that names the scheduler's subset only. *)
Definition scheduler_only : subset_t :=
  SubsetDict {[ "scheduler" := PyStr "gen" ]}.

(** The schedule and the closure [scheduler] builds for ['step']. *)
Definition step_schedule : sched_call := StepLR (PyInt 30) (PyFloat (1 # 10)).

Definition step_closure (subset : subset_t) : @schedule_step sched_call :=
  {| env_schedule_fn := Some (fn_step step_schedule); env_subset := subset |}.

(** Checkpoint files: an epoch, a learning rate, and falsy values. *)
Definition epoch_seven : gmap (string * string) pyval :=
  {[ ("out", "epoch_run") := PyInt 7 ]}.

Definition epoch_zero : gmap (string * string) pyval :=
  {[ ("out", "epoch_run") := PyInt 0 ]}.

Definition lr_twentieth : gmap (string * string) pyval :=
  {[ ("out", "lr_run") := PyFloat (1 # 20) ]}.

Definition lr_zero : gmap (string * string) pyval :=
  {[ ("out", "lr_run") := PyFloat 0 ]}.

(** A library whose option parser and schedule steps raise. *)
Definition failing_library : Collaborators string nat sched_call :=
  {| fetch_opts := fun _ _ => inl "no options";
     torch_optim := fun c => inr (new_optimizer c);
     lr_scheduler := fun c opt => (inr c, opt);
     scheduler_step := fun _ _ opt => (inl "step failed", opt) |}.

(** A library whose constructors refuse an empty parameter list, as those
    of [torch.optim] do, with a [ValueError]. *)
Definition checked_optimizer (c : optim_call)
  : py_exception + Optimizer nat :=
  match optim_params c with
  | [] =>
      inl {| exc_class := "ValueError";
             exc_message := "optimizer got an empty parameter list" |}
  | _ :: _ => inr (new_optimizer c)
  end.

Definition checking_library (o : Opts)
  : Collaborators py_exception nat sched_call :=
  {| fetch_opts := fun _ _ => inr o;
     torch_optim := checked_optimizer;
     lr_scheduler := fun c opt => (inr c, opt);
     scheduler_step := fun _ _ opt => (inr tt, opt) |}.

(** A world whose model has frozen parameters only. *)
Definition frozen_world : World nat sched_call :=
  {| w_model :=
       {| parameters :=
            [ {| param_id := 0; requires_grad := false |};
              {| param_id := 1; requires_grad := false |} ] |};
     w_optimizer := {| param_groups := []; torch_state := 0%nat |};
     w_files := ∅;
     w_stdout := [];
     w_calls := [] |}.


(** A checkpoint file holding the learning rate as a string. *)
Definition lr_text : gmap (string * string) pyval :=
  {[ ("out", "lr_run") := PyStr "0.05" ]}.

End Demo.

(** * Properties *)

Section Theory.

Context {E TorchState Scheduler : Type}.
Context `{Lib : !Collaborators E TorchState Scheduler}.

Implicit Types (w : World TorchState Scheduler) (subset : subset_t).
Implicit Types (opts : Opts) (e : exn E).

Lemma py_in_In (x : string) (l : list string) : py_in x l = true <-> In x l.
Proof.
  unfold py_in. rewrite existsb_exists. split.
  - intros (y & Hy & Heq). apply String.eqb_eq in Heq. by subst.
  - intros Hx. exists x. split; [done | apply String.eqb_refl].
Qed.

Lemma py_in_not_In (x : string) (l : list string) :
  py_in x l = false <-> ~ In x l.
Proof.
  rewrite <- py_in_In. destruct (py_in x l); split; congruence.
Qed.

(** The run of [optimizer] once the options are known. *)
Lemma optimizer_fetched subset opts w :
  fetch_opts ["optimizer"] subset = inr opts ->
  optimizer subset w =
    (if negb (py_in (opt_optimizer opts) parse_optimizers) then
       (Raise (ValueError
                 ("Optimizer " +:+ opt_optimizer opts +:+ " not available.")),
        w)
     else
       match
         List.find (fun entry => String.eqb (opt_optimizer opts) entry.1)
           (optimizer_table opts
              (List.filter requires_grad (parameters (w_model w))))
       with
       | Some entry => call_optim entry.2 w
       | None => (Raise (UnboundLocalError "ret_optimizer"), w)
       end).
Proof.
  intros Hfetch. unfold optimizer, optimizer_with, bind, call_fetch_opts. rewrite Hfetch.
  cbn [extern]. destruct (negb _); [done |].
  cbn [model_parameters List.find optimizer_table fst snd].
  repeat (destruct (String.eqb (opt_optimizer opts) _); [done |]).
  done.
Qed.

(** A recognized name selects the entry of the table under that name. *)
Lemma optimizer_table_recognized opts grad_params :
  In (opt_optimizer opts) parse_optimizers ->
  exists c,
    In (opt_optimizer opts, c) (optimizer_table opts grad_params) /\
    List.find (fun entry => String.eqb (opt_optimizer opts) entry.1)
      (optimizer_table opts grad_params) = Some (opt_optimizer opts, c) /\
    optim_params c = grad_params.
Proof.
  intros Hin. unfold optimizer_table. cbn [In parse_optimizers] in Hin.
  cbn [List.find fst].
  repeat
    (destruct Hin as [Hin | Hin];
     [ rewrite <- Hin; cbn; eexists; split;
       [ simpl; eauto 10 | split; reflexivity ] | ]).
  destruct Hin.
Qed.

(** C1: for each of the seven recognized names, [optimizer] makes the one
    library call the dispatch table gives for that name, with the
    configuration fields as its parameters, and returns what the constructor
    returns. *)
Theorem optimizer_dispatch subset opts w :
  fetch_opts ["optimizer"] subset = inr opts ->
  In (opt_optimizer opts) parse_optimizers ->
  exists c,
    In (opt_optimizer opts, c)
      (optimizer_table opts
         (List.filter requires_grad (parameters (w_model w)))) /\
    (optimizer subset w).1 = extern (torch_optim c) /\
    w_calls (optimizer subset w).2 = w_calls w ++ [CallOptim c] /\
    (forall o, torch_optim c = inr o -> (optimizer subset w).1 = Return o).
Proof.
  intros Hfetch Hin. rewrite (optimizer_fetched _ _ _ Hfetch).
  apply py_in_In in Hin as Hrec. rewrite Hrec. cbn [negb].
  destruct (optimizer_table_recognized opts
              (List.filter requires_grad (parameters (w_model w))) Hin)
    as (c & Hc & Hfind & _).
  exists c. rewrite Hfind. cbn [snd]. unfold call_optim. cbn.
  repeat split; [done |]. intros o Ho. by rewrite Ho.
Qed.

(** C2, amended: [optimizer] raises a [ValueError] of its own, the one that
    says the optimizer is not available, exactly when the configured name is
    not in [parse.optimizers]; it does so before anything else happens: the
    world, and with it the record of library calls, is as it was.  For a
    name of [parse.optimizers] every exception that leaves [optimizer] is
    one the library constructor raised (a [ValueError] of the library
    among them). *)
Theorem optimizer_value_error subset opts w :
  fetch_opts ["optimizer"] subset = inr opts ->
  ((exists msg, (optimizer subset w).1 = Raise (ValueError msg)) <->
   ~ In (opt_optimizer opts) parse_optimizers) /\
  (~ In (opt_optimizer opts) parse_optimizers ->
   optimizer subset w =
     (Raise (ValueError
               ("Optimizer " +:+ opt_optimizer opts +:+ " not available.")),
      w)) /\
  (In (opt_optimizer opts) parse_optimizers ->
   forall e, (optimizer subset w).1 = Raise e -> is_external e = true).
Proof.
  intros Hfetch. rewrite (optimizer_fetched _ _ _ Hfetch).
  destruct (py_in (opt_optimizer opts) parse_optimizers) eqn:Hrec; cbn [negb].
  - apply py_in_In in Hrec.
    destruct (optimizer_table_recognized opts
                (List.filter requires_grad (parameters (w_model w))) Hrec)
      as (c & _ & Hfind & _).
    rewrite Hfind. cbn [snd]. unfold call_optim. cbn [fst].
    split; [split |]; [| tauto | split; [tauto |]].
    + intros [msg Hmsg]. destruct (torch_optim c); discriminate.
    + intros _ e. destruct (torch_optim c); cbn; [| done]. by intros [= <-].
  - apply py_in_not_In in Hrec. split; [| split; [done | tauto]].
    split; [done |]. intros _. by eexists.
Qed.


(** Evaluate the comparisons of string literals in the goal. *)
Ltac eval_eqb :=
  repeat
    match goal with
    | |- context [String.eqb ?a ?b] =>
        let r := eval vm_compute in (String.eqb a b) in
        change (String.eqb a b) with r
    end.

(** C4: [scheduler] selects the schedule by [lr_schedule].  ['plateau']
    builds a [ReduceLROnPlateau] whose step receives the metric given to the
    closure, ['step'] builds a [StepLR] with [step_size=opts.lr_step_size]
    and [gamma=opts.lr_ratio] whose step receives no metric, ['none'] builds
    nothing and its schedule action does nothing; each time [scheduler]
    returns the closure [schedule_step] over that action. *)
Theorem scheduler_dispatch subset opts w :
  fetch_opts ["scheduler"] subset = inr opts ->
  (opt_lr_schedule opts = "plateau" ->
   let call :=
     ReduceLROnPlateau "min" (opt_lr_ratio opts) (PyFloat (1 # 10000))
       (opt_lr_patience opts) true "rel" (opt_lr_cooldown opts)
       (opt_lr_min opts) (PyFloat (1 # 100000000)) in
   scheduler subset w =
     (match (lr_scheduler call (w_optimizer w)).1 with
      | inr s =>
          Return {| env_schedule_fn := Some (fn_plateau s);
                    env_subset := subset |}
      | inl e => Raise (External e)
      end,
      set_optimizer (lr_scheduler call (w_optimizer w)).2
        (log_call (CallScheduler call) w))) /\
  (opt_lr_schedule opts = "step" ->
   let call := StepLR (opt_lr_step_size opts) (opt_lr_ratio opts) in
   scheduler subset w =
     (match (lr_scheduler call (w_optimizer w)).1 with
      | inr s =>
          Return {| env_schedule_fn := Some (fn_step s);
                    env_subset := subset |}
      | inl e => Raise (External e)
      end,
      set_optimizer (lr_scheduler call (w_optimizer w)).2
        (log_call (CallScheduler call) w))) /\
  (opt_lr_schedule opts = "none" ->
   scheduler subset w =
     (Return {| env_schedule_fn := Some fn_none; env_subset := subset |},
      w)) /\
  (forall s metric w',
     call_schedule_fn (fn_plateau s) metric w' =
       (extern (scheduler_step s (Some metric) (w_optimizer w')).1,
        set_optimizer (scheduler_step s (Some metric) (w_optimizer w')).2
          (log_call (CallStep s (Some metric)) w'))) /\
  (forall s metric w',
     call_schedule_fn (fn_step s) metric w' =
       (extern (scheduler_step s None (w_optimizer w')).1,
        set_optimizer (scheduler_step s None (w_optimizer w')).2
          (log_call (CallStep s None) w'))) /\
  (forall metric w', call_schedule_fn fn_none metric w' = (Return tt, w')).
Proof.
  intros Hfetch.
  repeat split.
  - intros Hname call. unfold scheduler, bind, call_fetch_opts.
    rewrite Hfetch. cbn [extern]. rewrite Hname. eval_eqb. cbn iota.
    unfold call_lr_scheduler. fold call.
    destruct (lr_scheduler call (w_optimizer w)) as [[e | s] o]; done.
  - intros Hname call. unfold scheduler, bind, call_fetch_opts.
    rewrite Hfetch. cbn [extern]. rewrite Hname. eval_eqb. cbn iota.
    unfold call_lr_scheduler. fold call.
    destruct (lr_scheduler call (w_optimizer w)) as [[e | s] o]; done.
  - intros Hname. unfold scheduler, bind, call_fetch_opts.
    rewrite Hfetch. cbn [extern]. rewrite Hname. eval_eqb. done.
  - intros s metric w'. cbn. unfold call_step.
    by destruct (scheduler_step s (Some metric) (w_optimizer w')).
  - intros s metric w'. cbn. unfold call_step.
    by destruct (scheduler_step s None (w_optimizer w')).
Qed.

(** *** The closure, step by step *)

(** The reads below raise the exceptions of the collaborators at hand. *)
Local Abbreviation get_lr := (@get_lr E TorchState Scheduler).
Local Abbreviation subset_name := (@subset_name E TorchState Scheduler).

Lemma get_lr_world w : (get_lr w).2 = w.
Proof. unfold get_lr. by repeat case_match. Qed.

Lemma has_lr_get_lr w :
  has_lr (w_optimizer w) = true <-> exists v, get_lr w = (Return v, w).
Proof.
  unfold has_lr, get_lr.
  destruct (param_groups (w_optimizer w) !! 0%nat) as [g |].
  - destruct (g !! "lr") as [v |] eqn:Hlr.
    + split; [by exists v | intros _; by apply bool_decide_eq_true].
    + split.
      * intros [v Hv]%bool_decide_eq_true_1. discriminate.
      * intros [v Hv]. discriminate.
  - split; [done |]. intros [v Hv]. discriminate.
Qed.

Lemma subset_name_world subset w : (subset_name subset w).2 = w.
Proof. unfold subset_name. by repeat case_match. Qed.

Lemma subset_name_named subset w :
  names_optimizer subset = true ->
  exists name, subset_name subset w = (Return name, w).
Proof.
  destruct subset as [v | d]; cbn; [by exists v |].
  intros [v Hv]%bool_decide_eq_true_1. rewrite Hv. by exists v.
Qed.

(** A schedule action leaves what is printed as it was. *)
Lemma call_schedule_fn_stdout (f : @schedule_fn Scheduler) metric w :
  w_stdout (call_schedule_fn f metric w).2 = w_stdout w.
Proof.
  destruct f as [s | s |]; cbn; [| | done]; unfold call_step;
    by destruct (scheduler_step s _ (w_optimizer w)).
Qed.





(** *** The checkpointers *)

Lemma epoch_checkpointer_run subset opts w :
  fetch_opts ["general"] subset = inr opts ->
  epoch_checkpointer subset w =
    (Return (checkpointer_for "epoch_" opts,
             py_or (default PyNone (persisted (checkpointer_for "epoch_" opts) w))
               (PyInt 1)),
     w).
Proof.
  intros Hfetch. unfold epoch_checkpointer, bind, call_fetch_opts.
  by rewrite Hfetch.
Qed.

(** The run of [lr_checkpointer] up to the write of the learning rate. *)
Lemma lr_checkpointer_run subset opts w g :
  fetch_opts ["general"; "optimizer"] subset = inr opts ->
  param_groups (w_optimizer w) !! 0%nat = Some g ->
  let lr :=
    py_or (default PyNone (persisted (checkpointer_for "lr_" opts) w))
      (opt_lr opts) in
  let w1 :=
    set_optimizer
      {| param_groups :=
           <[0%nat := <["lr" := lr]> g]> (param_groups (w_optimizer w));
         torch_state := torch_state (w_optimizer w) |} w in
  lr_checkpointer subset w =
    match subset_name subset w1 with
    | (Return name, w2) =>
        if formats lr then
          (Return (checkpointer_for "lr_" opts),
           (print (E:=E) (LrInitialized (name_suffix name) lr) w2).2)
        else (Raise (format_error lr), w2)
    | (Raise e, w2) => (Raise e, w2)
    end.
Proof.
  intros Hfetch Hg lr w1. unfold lr_checkpointer, bind, call_fetch_opts.
  rewrite Hfetch. cbn [extern load]. unfold set_lr. rewrite Hg.
  fold (checkpointer_for "lr_" opts).
  change (w_files w !! _) with (persisted (checkpointer_for "lr_" opts) w).
  fold lr. fold w1.
  destruct (subset_name subset w1) as [[name | e] w2]; [| done].
  unfold format_rate. by destruct (formats lr).
Qed.

(** C5, amended: [epoch_checkpointer] returns the checkpointer named
    ['epoch_'] plus the experiment name, in the configured save path, with
    the current epoch: the persisted value when a checkpoint exists and its
    value is truthy, and 1 when no checkpoint has been persisted. *)
Theorem epoch_checkpointer_restores subset opts w :
  fetch_opts ["general"] subset = inr opts ->
  let epoch_chkp := checkpointer_for "epoch_" opts in
  exists current_epoch,
    epoch_checkpointer subset w = (Return (epoch_chkp, current_epoch), w) /\
    chk_name epoch_chkp = "epoch_" +:+ opt_experiment_name opts /\
    chk_directory epoch_chkp = opt_save_path opts /\
    (forall v,
       persisted epoch_chkp w = Some v -> truthy v = true ->
       current_epoch = v) /\
    (persisted epoch_chkp w = None -> current_epoch = PyInt 1).
Proof.
  intros Hfetch epoch_chkp. eexists. split.
  - by apply epoch_checkpointer_run.
  - fold epoch_chkp. repeat split.
    + intros v Hp Hv. rewrite Hp. cbn [default from_option id]. unfold py_or. by rewrite Hv.
    + by intros ->.
Qed.


(** C9: a persisted value is taken only when truthy.  [None], [0] and [0.0]
    are falsy; with a falsy persisted epoch [epoch_checkpointer] reports
    epoch 1, and with a falsy persisted learning rate [lr_checkpointer]
    writes [opts.lr] to the optimizer. *)
Theorem falsy_checkpoint_falls_back :
  (truthy PyNone = false /\ truthy (PyInt 0) = false /\
   truthy (PyFloat 0) = false) /\
  (forall subset opts w v,
     fetch_opts ["general"] subset = inr opts ->
     persisted (checkpointer_for "epoch_" opts) w = Some v ->
     truthy v = false ->
     (epoch_checkpointer subset w).1 =
       Return (checkpointer_for "epoch_" opts, PyInt 1)) /\
  (forall subset opts w v g,
     fetch_opts ["general"; "optimizer"] subset = inr opts ->
     persisted (checkpointer_for "lr_" opts) w = Some v ->
     truthy v = false ->
     param_groups (w_optimizer w) !! 0%nat = Some g ->
     param_groups (w_optimizer (lr_checkpointer subset w).2) =
       <[0%nat := <["lr" := opt_lr opts]> g]> (param_groups (w_optimizer w))).
Proof.
  split; [done |]. split.
  - intros subset opts w v Hfetch Hv Hfalsy.
    rewrite (epoch_checkpointer_run _ _ _ Hfetch), Hv. cbn [default from_option id fst].
    unfold py_or. by rewrite Hfalsy.
  - intros subset opts w v g Hfetch Hv Hfalsy Hg.
    rewrite (lr_checkpointer_run _ _ _ _ Hfetch Hg). cbv zeta.
    rewrite Hv. cbn [default from_option id]. unfold py_or. rewrite Hfalsy.
    set (w1 := set_optimizer _ w).
    pose proof (subset_name_world subset w1) as Hw.
    destruct (subset_name subset w1) as [[name | e] w2]; cbn in Hw; subst w2;
      [| done].
    by destruct (formats (opt_lr opts)).
Qed.

(** *** What the functions leave alone *)

Lemma call_step_frame s m w :
  let w' := (call_step s m w).2 in
  w_model w' = w_model w /\ w_files w' = w_files w /\
  w_stdout w' = w_stdout w /\
  w_optimizer w' = (scheduler_step s m (w_optimizer w)).2.
Proof.
  unfold call_step. by destruct (scheduler_step s m (w_optimizer w)).
Qed.

Lemma call_lr_scheduler_frame call w :
  let w' := (call_lr_scheduler call w).2 in
  w_model w' = w_model w /\ w_files w' = w_files w /\
  w_stdout w' = w_stdout w /\
  w_optimizer w' = (lr_scheduler call (w_optimizer w)).2.
Proof.
  unfold call_lr_scheduler. by destruct (lr_scheduler call (w_optimizer w)).
Qed.

Lemma optimizer_frame subset w :
  let w' := (optimizer subset w).2 in
  w_model w' = w_model w /\ w_optimizer w' = w_optimizer w /\
  w_files w' = w_files w /\ w_stdout w' = w_stdout w.
Proof.
  unfold optimizer, optimizer_with, bind, call_fetch_opts.
  destruct (fetch_opts ["optimizer"] subset) as [e | opts]; [done |].
  cbn [extern]. destruct (negb _); [done |].
  cbn [model_parameters].
  repeat (destruct (String.eqb (opt_optimizer opts) _); [done |]).
  done.
Qed.

Lemma scheduler_frame subset w :
  let w' := (scheduler subset w).2 in
  w_model w' = w_model w /\ w_files w' = w_files w /\
  w_stdout w' = w_stdout w /\
  (w_optimizer w' = w_optimizer w \/
   exists call, w_optimizer w' = (lr_scheduler call (w_optimizer w)).2).
Proof.
  unfold scheduler, bind, call_fetch_opts.
  destruct (fetch_opts ["scheduler"] subset) as [e | opts]; [by auto |].
  cbn [extern].
  repeat
    (destruct (String.eqb (opt_lr_schedule opts) _);
     [ match goal with
       | |- context [call_lr_scheduler ?call w] =>
           destruct (call_lr_scheduler_frame call w) as (? & ? & ? & ?);
           destruct (call_lr_scheduler call w) as [[s | e] w1];
           cbn in *; by eauto 10
       | _ => by auto
       end | ]).
  by auto.
Qed.

Lemma lr_checkpointer_frame subset w :
  let w' := (lr_checkpointer subset w).2 in
  w_model w' = w_model w /\ w_files w' = w_files w /\
  w_calls w' = w_calls w /\
  torch_state (w_optimizer w') = torch_state (w_optimizer w) /\
  length (param_groups (w_optimizer w')) =
    length (param_groups (w_optimizer w)) /\
  (forall i, i <> 0%nat ->
     param_groups (w_optimizer w') !! i = param_groups (w_optimizer w) !! i) /\
  (forall g g' k,
     param_groups (w_optimizer w) !! 0%nat = Some g ->
     param_groups (w_optimizer w') !! 0%nat = Some g' ->
     k <> "lr" -> g' !! k = g !! k).
Proof.
  unfold lr_checkpointer, bind, call_fetch_opts.
  destruct (fetch_opts ["general"; "optimizer"] subset) as [e | opts].
  { cbn. repeat split; try done; intros; congruence. }
  cbn [extern load]. unfold set_lr.
  destruct (param_groups (w_optimizer w) !! 0%nat) as [g0 |] eqn:Hg0.
  2:{ cbn. repeat split; try done; intros; congruence. }
  set (lr := py_or _ _). set (w1 := set_optimizer _ w).
  assert (Hw1 :
    w_model w1 = w_model w /\ w_files w1 = w_files w /\
    w_calls w1 = w_calls w /\
    torch_state (w_optimizer w1) = torch_state (w_optimizer w) /\
    param_groups (w_optimizer w1) =
      <[0%nat := <["lr" := lr]> g0]> (param_groups (w_optimizer w)))
    by done.
  pose proof (subset_name_world subset w1) as Hw.
  assert (Hgoal : forall w2 : World TorchState Scheduler,
    w_model w2 = w_model w1 -> w_files w2 = w_files w1 ->
    w_calls w2 = w_calls w1 -> w_optimizer w2 = w_optimizer w1 ->
    w_model w2 = w_model w /\ w_files w2 = w_files w /\
    w_calls w2 = w_calls w /\
    torch_state (w_optimizer w2) = torch_state (w_optimizer w) /\
    length (param_groups (w_optimizer w2)) =
      length (param_groups (w_optimizer w)) /\
    (forall i, i <> 0%nat ->
       param_groups (w_optimizer w2) !! i =
         param_groups (w_optimizer w) !! i) /\
    (forall g g' k,
       Some g0 = Some g ->
       param_groups (w_optimizer w2) !! 0%nat = Some g' ->
       k <> "lr" -> g' !! k = g !! k)).
  { intros w2 -> -> -> ->. destruct Hw1 as (-> & -> & -> & -> & ->).
    repeat split; try done.
    - apply length_insert.
    - intros i Hi. by apply list_lookup_insert_ne.
    - intros g g' k Hg Hg' Hk. injection Hg as <-.
      rewrite list_lookup_insert_eq in Hg' by (by eapply lookup_lt_Some).
      injection Hg' as <-. by apply lookup_insert_ne. }
  clearbody w1 lr.
  destruct (subset_name subset w1) as [[name | e] w2]; cbn in Hw; subst w2.
  - unfold format_rate. destruct (formats lr).
    + by apply
        (Hgoal (print (E:=E) (LrInitialized (name_suffix name) lr) w1).2).
    + by apply (Hgoal w1).
  - by apply (Hgoal w1).
Qed.

Lemma call_schedule_step_frame c metric w :
  let w' := (call_schedule_step c metric w).2 in
  w_model w' = w_model w /\ w_files w' = w_files w /\
  (w_optimizer w' = w_optimizer w \/
   exists s m,
     (env_schedule_fn c = Some (fn_plateau s) /\ m = Some metric \/
      env_schedule_fn c = Some (fn_step s) /\ m = None) /\
     w_optimizer w' = (scheduler_step s m (w_optimizer w)).2).
Proof.
  unfold call_schedule_step, bind.
  pose proof (get_lr_world w) as Hw.
  destruct (get_lr w) as [[current_lr | e] w0]; cbn in Hw; subst w0;
    [| by auto].
  assert (Hfn : exists r w1,
    match env_schedule_fn c with
    | Some f => call_schedule_fn f metric
    | None => raise (NameError "schedule_fn")
    end w = (r, w1) /\
    w_model w1 = w_model w /\ w_files w1 = w_files w /\
    (w_optimizer w1 = w_optimizer w \/
     exists s m,
       (env_schedule_fn c = Some (fn_plateau s) /\ m = Some metric \/
        env_schedule_fn c = Some (fn_step s) /\ m = None) /\
       w_optimizer w1 = (scheduler_step s m (w_optimizer w)).2)).
  { destruct (env_schedule_fn c) as [[s | s |] |]; cbn [call_schedule_fn].
    - destruct (call_step_frame s (Some metric) w) as (? & ? & _ & ?).
      destruct (call_step s (Some metric) w) as [r w1]. cbn in *.
      exists r, w1. by eauto 10.
    - destruct (call_step_frame s None w) as (? & ? & _ & ?).
      destruct (call_step s None w) as [r w1]. cbn in *.
      exists r, w1. by eauto 10.
    - by eauto 10.
    - by eauto 10. }
  destruct Hfn as (r & w1 & -> & Hm & Hf & Ho). destruct r as [[] | e];
    [| by auto].
  pose proof (get_lr_world w1) as Hw1.
  destruct (get_lr w1) as [[new_lr | e] w2]; cbn in Hw1; subst w2;
    [| by auto].
  destruct (py_ne new_lr current_lr); [| by auto].
  pose proof (subset_name_world (env_subset c) w1) as Hw2.
  destruct (subset_name (env_subset c) w1) as [[name | e] w2]; cbn in Hw2;
    subst w2; [| by auto].
  unfold format_rate. destruct (formats current_lr); [| by auto].
  destruct (formats new_lr); by auto.
Qed.

(** C7: the functions write to the optimizer only.  [optimizer] leaves the
    model (and everything but the record of library calls) as it was;
    [lr_checkpointer] changes nothing but the ['lr'] entry of the first
    parameter group, and prints; the closure changes the optimizer through
    the step of the selected library schedule or not at all; [scheduler]
    changes it through the library constructor or not at all; and
    [epoch_checkpointer] changes nothing.  None of them touches the model or
    the checkpoint files. *)
Theorem module_frame :
  (forall subset w,
     let w' := (optimizer subset w).2 in
     w_model w' = w_model w /\ w_optimizer w' = w_optimizer w /\
     w_files w' = w_files w /\ w_stdout w' = w_stdout w) /\
  (forall subset w,
     let w' := (lr_checkpointer subset w).2 in
     w_model w' = w_model w /\ w_files w' = w_files w /\
     w_calls w' = w_calls w /\
     torch_state (w_optimizer w') = torch_state (w_optimizer w) /\
     length (param_groups (w_optimizer w')) =
       length (param_groups (w_optimizer w)) /\
     (forall i, i <> 0%nat ->
        param_groups (w_optimizer w') !! i =
          param_groups (w_optimizer w) !! i) /\
     (forall g g' k,
        param_groups (w_optimizer w) !! 0%nat = Some g ->
        param_groups (w_optimizer w') !! 0%nat = Some g' ->
        k <> "lr" -> g' !! k = g !! k)) /\
  (forall c metric w,
     let w' := (call_schedule_step c metric w).2 in
     w_model w' = w_model w /\ w_files w' = w_files w /\
     (w_optimizer w' = w_optimizer w \/
      exists s m,
        (env_schedule_fn c = Some (fn_plateau s) /\ m = Some metric \/
         env_schedule_fn c = Some (fn_step s) /\ m = None) /\
        w_optimizer w' = (scheduler_step s m (w_optimizer w)).2)) /\
  (forall subset w,
     let w' := (scheduler subset w).2 in
     w_model w' = w_model w /\ w_files w' = w_files w /\
     w_stdout w' = w_stdout w /\
     (w_optimizer w' = w_optimizer w \/
      exists call, w_optimizer w' = (lr_scheduler call (w_optimizer w)).2)) /\
  (forall subset w, (epoch_checkpointer subset w).2 = w).
Proof.
  split; [exact optimizer_frame |].
  split; [exact lr_checkpointer_frame |].
  split; [exact call_schedule_step_frame |].
  split; [exact scheduler_frame |].
  intros subset w. unfold epoch_checkpointer, bind, call_fetch_opts.
  by destruct (fetch_opts ["general"] subset).
Qed.

(** *** The module's own exceptions *)

Lemma extern_external {A} (r : E + A) e :
  extern r = Raise e -> is_external e = true.
Proof. destruct r; cbn; [| done]. by intros [= <-]. Qed.

(** The run of [optimizer_with] once the options are known: a name of
    [optimizers] without a branch ends in [UnboundLocalError]. *)
Lemma optimizer_with_fetched optimizers subset opts w :
  fetch_opts ["optimizer"] subset = inr opts ->
  optimizer_with optimizers subset w =
    (if negb (py_in (opt_optimizer opts) optimizers) then
       (Raise (ValueError
                 ("Optimizer " +:+ opt_optimizer opts +:+ " not available.")),
        w)
     else
       match
         List.find (fun entry => String.eqb (opt_optimizer opts) entry.1)
           (optimizer_table opts
              (List.filter requires_grad (parameters (w_model w))))
       with
       | Some entry => call_optim entry.2 w
       | None => (Raise (UnboundLocalError "ret_optimizer"), w)
       end).
Proof.
  intros Hfetch. unfold optimizer_with, bind, call_fetch_opts.
  rewrite Hfetch. cbn [extern]. destruct (negb _); [done |].
  cbn [model_parameters List.find optimizer_table fst snd].
  repeat (destruct (String.eqb (opt_optimizer opts) _); [done |]).
  done.
Qed.

Lemma optimizer_with_errors optimizers subset w e :
  (forall name,
     In name optimizers ->
     In name ["adam"; "sgd"; "adadelta"; "adagrad"; "sparseadam"; "adamax";
              "rmsprop"]) ->
  (optimizer_with optimizers subset w).1 = Raise e ->
  is_external e = true \/
  exists opts,
    fetch_opts ["optimizer"] subset = inr opts /\
    ~ In (opt_optimizer opts) optimizers /\
    e = ValueError
          ("Optimizer " +:+ opt_optimizer opts +:+ " not available.").
Proof.
  intros Hbranches.
  destruct (fetch_opts ["optimizer"] subset) as [e0 | opts] eqn:Hfetch.
  { unfold optimizer_with, bind, call_fetch_opts. rewrite Hfetch. cbn.
    intros [= <-]. by left. }
  rewrite (optimizer_with_fetched _ _ _ _ Hfetch).
  destruct (py_in (opt_optimizer opts) optimizers) eqn:Hrec; cbn [negb].
  - apply py_in_In, Hbranches in Hrec.
    destruct (optimizer_table_recognized opts
                (List.filter requires_grad (parameters (w_model w))) Hrec)
      as (c & _ & -> & _).
    cbn. intros He. left. by eapply extern_external.
  - apply py_in_not_In in Hrec. cbn. intros [= <-]. right. by exists opts.
Qed.

Lemma has_number_lr_get_lr w :
  has_number_lr (w_optimizer w) = true ->
  exists v, get_lr w = (Return v, w) /\ formats v = true.
Proof.
  unfold has_number_lr, get_lr.
  destruct (param_groups (w_optimizer w) !! 0%nat) as [g |]; [| done].
  destruct (g !! "lr") as [v |]; [| done]. intros Hv. by exists v.
Qed.

Lemma scheduler_errors subset w e :
  (scheduler subset w).1 = Raise e -> is_external e = true.
Proof.
  unfold scheduler, bind, call_fetch_opts.
  destruct (fetch_opts ["scheduler"] subset) as [e0 | opts];
    [cbn; by intros [= <-] |].
  cbn [extern]. unfold call_lr_scheduler.
  repeat
    (destruct (String.eqb (opt_lr_schedule opts) _);
     [ try done;
       match goal with
       | |- context [lr_scheduler ?call (w_optimizer w)] =>
           destruct (lr_scheduler call (w_optimizer w)) as [[e1 | s] o];
           cbn; [by intros [= <-] | done]
       end | ]).
  done.
Qed.

Lemma scheduler_binds subset opts w c :
  fetch_opts ["scheduler"] subset = inr opts ->
  In (opt_lr_schedule opts) ["plateau"; "step"; "none"] ->
  (scheduler subset w).1 = Return c ->
  is_Some (env_schedule_fn c) /\ env_subset c = subset.
Proof.
  intros Hfetch Hin. unfold scheduler, bind, call_fetch_opts.
  rewrite Hfetch. cbn [extern]. unfold call_lr_scheduler.
  cbn [In] in Hin.
  destruct Hin as [<- | [<- | [<- | []]]]; eval_eqb; cbv beta iota;
    try match goal with
      | |- context [lr_scheduler ?call (w_optimizer w)] =>
          destruct (lr_scheduler call (w_optimizer w)) as [[e1 | s] o]
      end;
    cbn; try done; by intros [= <-].
Qed.

Lemma call_schedule_fn_errors (f : @schedule_fn Scheduler) metric w e :
  (call_schedule_fn f metric w).1 = Raise e -> is_external e = true.
Proof.
  destruct f as [s | s |]; cbn; [| | done]; unfold call_step;
    destruct (scheduler_step s _ (w_optimizer w)) as [r o]; cbn;
    apply extern_external.
Qed.

Lemma call_schedule_step_errors c metric w f e :
  env_schedule_fn c = Some f ->
  names_optimizer (env_subset c) = true ->
  has_number_lr (w_optimizer w) = true ->
  has_number_lr (w_optimizer (call_schedule_fn f metric w).2) = true ->
  (call_schedule_step c metric w).1 = Raise e ->
  is_external e = true.
Proof.
  intros Hf Hnamed (current_lr & Hcur & Hfcur)%has_number_lr_get_lr Hafter.
  unfold call_schedule_step, bind. rewrite Hcur, Hf.
  pose proof (call_schedule_fn_errors f metric w) as Hfn.
  destruct (call_schedule_fn f metric w) as [[[] | e1] w1]; cbn in Hfn, Hafter;
    [| cbn; intros [= <-]; by apply Hfn].
  apply has_number_lr_get_lr in Hafter as (new_lr & -> & Hfnew).
  destruct (py_ne new_lr current_lr); [| done].
  destruct (subset_name_named _ w1 Hnamed) as [name ->].
  unfold format_rate. by rewrite Hfcur, Hfnew.
Qed.

Lemma epoch_checkpointer_errors subset w e :
  (epoch_checkpointer subset w).1 = Raise e -> is_external e = true.
Proof.
  unfold epoch_checkpointer, bind, call_fetch_opts.
  destruct (fetch_opts ["general"] subset); cbn; [| done]. by intros [= <-].
Qed.

Lemma lr_checkpointer_errors subset w e :
  names_optimizer subset = true ->
  param_groups (w_optimizer w) <> [] ->
  (forall opts,
     fetch_opts ["general"; "optimizer"] subset = inr opts ->
     formats
       (py_or (default PyNone (persisted (checkpointer_for "lr_" opts) w))
          (opt_lr opts)) = true) ->
  (lr_checkpointer subset w).1 = Raise e -> is_external e = true.
Proof.
  intros Hnamed Hgroups Hformats.
  destruct (fetch_opts ["general"; "optimizer"] subset) as [e0 | opts]
    eqn:Hfetch.
  { unfold lr_checkpointer, bind, call_fetch_opts. rewrite Hfetch. cbn.
    by intros [= <-]. }
  destruct (param_groups (w_optimizer w)) as [| g groups] eqn:Hg; [done |].
  assert (Hg0 : param_groups (w_optimizer w) !! 0%nat = Some g)
    by (by rewrite Hg).
  rewrite (lr_checkpointer_run _ _ _ _ Hfetch Hg0). cbv zeta.
  rewrite (Hformats opts eq_refl).
  set (w1 := set_optimizer _ w).
  by destruct (subset_name_named subset w1 Hnamed) as [name ->].
Qed.

(** C3, amended: when every name of [parse.optimizers] is one of the seven
    names the branches of [optimizer] compare with, [lr_schedule] is one of
    ['plateau'], ['step'] and ['none'], [subset] is no dict or a dict with an
    ['optimizer'] entry, and the learning rates the module prints are numbers
    [{:.2e}] formats, the unknown-optimizer [ValueError] is the only
    exception of the module's own: [optimizer] ends in its [ValueError] or a
    collaborator's exception or returns, so a validated name always reaches
    a dispatch branch; [scheduler] binds the schedule action of the closure
    it returns, and a call of that closure on an optimizer that has, and
    keeps, such a learning rate raises a collaborator's exception or returns;
    so do [epoch_checkpointer] and, on an optimizer with a parameter group,
    [lr_checkpointer]. *)
Theorem module_errors :
  (forall optimizers subset w e,
     (forall name,
        In name optimizers ->
        In name ["adam"; "sgd"; "adadelta"; "adagrad"; "sparseadam";
                 "adamax"; "rmsprop"]) ->
     (optimizer_with optimizers subset w).1 = Raise e ->
     is_external e = true \/
     exists opts,
       fetch_opts ["optimizer"] subset = inr opts /\
       ~ In (opt_optimizer opts) optimizers /\
       e = ValueError
             ("Optimizer " +:+ opt_optimizer opts +:+ " not available.")) /\
  (forall subset w e,
     (scheduler subset w).1 = Raise e -> is_external e = true) /\
  (forall subset opts w c,
     fetch_opts ["scheduler"] subset = inr opts ->
     In (opt_lr_schedule opts) ["plateau"; "step"; "none"] ->
     (scheduler subset w).1 = Return c ->
     is_Some (env_schedule_fn c) /\ env_subset c = subset) /\
  (forall c metric w f e,
     env_schedule_fn c = Some f ->
     names_optimizer (env_subset c) = true ->
     has_number_lr (w_optimizer w) = true ->
     has_number_lr (w_optimizer (call_schedule_fn f metric w).2) = true ->
     (call_schedule_step c metric w).1 = Raise e ->
     is_external e = true) /\
  (forall subset w e,
     (epoch_checkpointer subset w).1 = Raise e -> is_external e = true) /\
  (forall subset w e,
     names_optimizer subset = true ->
     param_groups (w_optimizer w) <> [] ->
     (forall opts,
        fetch_opts ["general"; "optimizer"] subset = inr opts ->
        formats
          (py_or (default PyNone (persisted (checkpointer_for "lr_" opts) w))
             (opt_lr opts)) = true) ->
     (lr_checkpointer subset w).1 = Raise e -> is_external e = true).
Proof.
  split; [exact optimizer_with_errors |].
  split; [exact scheduler_errors |].
  split; [exact scheduler_binds |].
  split; [exact call_schedule_step_errors |].
  split; [exact epoch_checkpointer_errors | exact lr_checkpointer_errors].
Qed.

(** ** Further behaviour of the four functions *)

(** *** Failures *)

(** X1: when [fetch_opts] raises, each of the four functions raises the same
    exception and leaves the world as it was: nothing is built, written or
    printed before the options are there. *)
Theorem fetch_opts_failure_propagates subset w (err : E) :
  (fetch_opts ["optimizer"] subset = inl err ->
   optimizer subset w = (Raise (External err), w)) /\
  (fetch_opts ["scheduler"] subset = inl err ->
   scheduler subset w = (Raise (External err), w)) /\
  (fetch_opts ["general"] subset = inl err ->
   epoch_checkpointer subset w = (Raise (External err), w)) /\
  (fetch_opts ["general"; "optimizer"] subset = inl err ->
   lr_checkpointer subset w = (Raise (External err), w)).
Proof.
  repeat split; intros Hfetch;
    [ unfold optimizer, optimizer_with | unfold scheduler | unfold epoch_checkpointer
    | unfold lr_checkpointer ];
    unfold bind, call_fetch_opts; by rewrite Hfetch.
Qed.

(** X2: on an optimizer without parameter groups [lr_checkpointer] raises
    [IndexError] at the write of the learning rate, with the world as it was:
    nothing is printed. *)
Theorem lr_checkpointer_no_groups subset opts w :
  fetch_opts ["general"; "optimizer"] subset = inr opts ->
  param_groups (w_optimizer w) = [] ->
  lr_checkpointer subset w = (Raise IndexError, w).
Proof.
  intros Hfetch Hgroups. unfold lr_checkpointer, bind, call_fetch_opts.
  rewrite Hfetch. cbn [extern load]. unfold set_lr. by rewrite Hgroups.
Qed.

(** X3: with a dict [subset] that has no ['optimizer'] entry
    [lr_checkpointer] raises [KeyError] only after the write: the learning
    rate of the first group is already replaced, and nothing is printed. *)
Theorem lr_checkpointer_unnamed_dict d opts w g :
  fetch_opts ["general"; "optimizer"] (SubsetDict d) = inr opts ->
  d !! "optimizer" = None ->
  param_groups (w_optimizer w) !! 0%nat = Some g ->
  let lr :=
    py_or (default PyNone (persisted (checkpointer_for "lr_" opts) w))
      (opt_lr opts) in
  let w' := (lr_checkpointer (SubsetDict d) w).2 in
  (lr_checkpointer (SubsetDict d) w).1 = Raise (KeyError "optimizer") /\
  param_groups (w_optimizer w') =
    <[0%nat := <["lr" := lr]> g]> (param_groups (w_optimizer w)) /\
  get_lr w' = (Return lr, w') /\
  w_stdout w' = w_stdout w.
Proof.
  intros Hfetch Hd Hg lr w'. subst w'.
  rewrite (lr_checkpointer_run _ _ _ _ Hfetch Hg). cbv zeta. fold lr.
  cbn [subset_name]. rewrite Hd. cbn. repeat split.
  unfold get_lr. cbn.
  rewrite list_lookup_insert_eq by (by eapply lookup_lt_Some).
  by rewrite lookup_insert_eq.
Qed.

(** X4: for an [lr_schedule] other than ['plateau'], ['step'] and ['none']
    [scheduler] still returns a closure, without a call into the library and
    with the world as it was; every call of that closure on an optimizer
    with a learning rate raises [NameError] and changes nothing. *)
Theorem scheduler_unknown_schedule subset opts w :
  fetch_opts ["scheduler"] subset = inr opts ->
  ~ In (opt_lr_schedule opts) ["plateau"; "step"; "none"] ->
  scheduler subset w =
    (Return {| env_schedule_fn := None; env_subset := subset |}, w) /\
  (forall metric w1,
     has_lr (w_optimizer w1) = true ->
     call_schedule_step {| env_schedule_fn := None; env_subset := subset |}
       metric w1 = (Raise (NameError "schedule_fn"), w1)).
Proof.
  intros Hfetch Hnot. split.
  - unfold scheduler, bind, call_fetch_opts. rewrite Hfetch. cbn [extern].
    destruct (String.eqb (opt_lr_schedule opts) "plateau") eqn:H1.
    { apply String.eqb_eq in H1. destruct Hnot. rewrite H1. cbn. tauto. }
    destruct (String.eqb (opt_lr_schedule opts) "step") eqn:H2.
    { apply String.eqb_eq in H2. destruct Hnot. rewrite H2. cbn. tauto. }
    destruct (String.eqb (opt_lr_schedule opts) "none") eqn:H3.
    { apply String.eqb_eq in H3. destruct Hnot. rewrite H3. cbn. tauto. }
    done.
  - intros metric w1 [v Hv]%has_lr_get_lr.
    unfold call_schedule_step, bind. by rewrite Hv.
Qed.

(** X5: the closure reads the learning rate before it calls the schedule.
    On an optimizer without parameter groups it raises [IndexError], on one
    whose first group has no ['lr'] entry [KeyError], and in both cases the
    world, the record of library calls included, is as it was: the schedule
    was not stepped. *)
Theorem schedule_step_unreadable_lr c metric w :
  (param_groups (w_optimizer w) = [] ->
   call_schedule_step c metric w = (Raise IndexError, w)) /\
  (forall g,
     param_groups (w_optimizer w) !! 0%nat = Some g -> g !! "lr" = None ->
     call_schedule_step c metric w = (Raise (KeyError "lr"), w)).
Proof.
  split.
  - intros Hgroups. unfold call_schedule_step, bind, get_lr.
    by rewrite Hgroups.
  - intros g Hg Hlr. unfold call_schedule_step, bind, get_lr.
    by rewrite Hg, Hlr.
Qed.

(** *** Restoring twice, and what is restored *)

(** The files and the optimizer [lr_checkpointer] leaves, whichever way it
    ends. *)
Lemma lr_checkpointer_optimizer subset w :
  w_files (lr_checkpointer subset w).2 = w_files w /\
  w_optimizer (lr_checkpointer subset w).2 =
    match fetch_opts ["general"; "optimizer"] subset with
    | inl _ => w_optimizer w
    | inr opts =>
        match param_groups (w_optimizer w) !! 0%nat with
        | None => w_optimizer w
        | Some g =>
            {| param_groups :=
                 <[0%nat :=
                     <["lr" :=
                         py_or
                           (default PyNone
                              (w_files w !!
                                 (opt_save_path opts,
                                  "lr_" +:+ opt_experiment_name opts)))
                           (opt_lr opts)]> g]>
                   (param_groups (w_optimizer w));
               torch_state := torch_state (w_optimizer w) |}
        end
    end.
Proof.
  unfold lr_checkpointer, bind, call_fetch_opts.
  destruct (fetch_opts ["general"; "optimizer"] subset) as [err | opts];
    [done |].
  cbn [extern load chk_directory chk_name]. unfold set_lr.
  destruct (param_groups (w_optimizer w) !! 0%nat) as [g |]; [| done].
  set (lr := py_or _ _). set (w1 := set_optimizer _ w).
  pose proof (subset_name_world subset w1) as Hw.
  destruct (subset_name subset w1) as [[name | e] w2]; cbn in Hw; subst w2;
    [| done].
  unfold format_rate. by destruct (formats lr).
Qed.

(** X6: [lr_checkpointer] is idempotent on the optimizer: a second call
    right after the first leaves the optimizer as the first did, whether the
    calls return or raise. *)
Theorem lr_checkpointer_idempotent subset w :
  w_optimizer (lr_checkpointer subset (lr_checkpointer subset w).2).2 =
  w_optimizer (lr_checkpointer subset w).2.
Proof.
  destruct (lr_checkpointer_optimizer subset (lr_checkpointer subset w).2)
    as [_ ->].
  destruct (lr_checkpointer_optimizer subset w) as [-> ->].
  destruct (fetch_opts ["general"; "optimizer"] subset) as [err | opts];
    [done |].
  destruct (param_groups (w_optimizer w) !! 0%nat) as [g |] eqn:Hg;
    [| by rewrite Hg].
  cbn [param_groups torch_state].
  rewrite list_lookup_insert_eq by (by eapply lookup_lt_Some).
  by rewrite list_insert_insert_eq, insert_insert_eq.
Qed.

(** X7: [lr_checkpointer] prints exactly when it returns, and then one
    message: it carries the learning rate that the first group now holds,
    and the name [subset] gives (the ['optimizer'] entry of a dict) unless
    that name is falsy.  When it raises, nothing is printed. *)
Theorem lr_checkpointer_message subset w :
  let w' := (lr_checkpointer subset w).2 in
  match (lr_checkpointer subset w).1 with
  | Return lr_chkp =>
      exists name lr,
        (subset = SubsetVal name \/
         exists d, subset = SubsetDict d /\ d !! "optimizer" = Some name) /\
        w_stdout w' =
          w_stdout w ++
            [LrInitialized (if truthy name then Some name else None) lr] /\
        get_lr w' = (Return lr, w')
  | Raise _ => w_stdout w' = w_stdout w
  end.
Proof.
  cbv zeta.
  destruct (fetch_opts ["general"; "optimizer"] subset) as [err | opts]
    eqn:Hfetch.
  { unfold lr_checkpointer, bind, call_fetch_opts. by rewrite Hfetch. }
  destruct (param_groups (w_optimizer w) !! 0%nat) as [g |] eqn:Hg.
  2:{ unfold lr_checkpointer, bind, call_fetch_opts. rewrite Hfetch.
      cbn [extern load]. unfold set_lr. by rewrite Hg. }
  rewrite (lr_checkpointer_run _ _ _ _ Hfetch Hg). cbv zeta.
  set (lr := py_or _ _). set (w1 := set_optimizer _ w).
  assert (Hread : forall out,
    get_lr {| w_model := w_model w1; w_optimizer := w_optimizer w1;
              w_files := w_files w1; w_stdout := out;
              w_calls := w_calls w1 |} =
    (Return lr,
     {| w_model := w_model w1; w_optimizer := w_optimizer w1;
        w_files := w_files w1; w_stdout := out; w_calls := w_calls w1 |})).
  { intros out. unfold get_lr. cbn.
    rewrite list_lookup_insert_eq by (by eapply lookup_lt_Some).
    by rewrite lookup_insert_eq. }
  destruct subset as [name | d]; cbn [subset_name ret].
  - destruct (formats lr); [| done].
    exists name, lr. cbn. split; [by left |]. split; [done | apply Hread].
  - destruct (d !! "optimizer") as [name |] eqn:Hd; cbn [raise]; [| done].
    destruct (formats lr); [| done].
    exists name, lr. cbn. split; [right; by exists d |].
    split; [done | apply Hread].
Qed.


(** *** Calls into the library *)

(** X9: each function calls into the numerical library at most once:
    [optimizer] one constructor of [torch.optim], and only for a recognized
    name; [scheduler] one constructor of a schedule, and none unless
    [lr_schedule] is ['plateau'] or ['step']; a call of the closure one
    [step], of the schedule the closure holds. *)
Theorem library_called_at_most_once :
  (forall subset w,
     w_calls (optimizer subset w).2 = w_calls w \/
     exists opts c,
       fetch_opts ["optimizer"] subset = inr opts /\
       In (opt_optimizer opts) parse_optimizers /\
       w_calls (optimizer subset w).2 = w_calls w ++ [CallOptim c]) /\
  (forall subset w,
     w_calls (scheduler subset w).2 = w_calls w \/
     exists opts c,
       fetch_opts ["scheduler"] subset = inr opts /\
       In (opt_lr_schedule opts) ["plateau"; "step"] /\
       w_calls (scheduler subset w).2 = w_calls w ++ [CallScheduler c]) /\
  (forall c metric w,
     w_calls (call_schedule_step c metric w).2 = w_calls w \/
     exists s m,
       (env_schedule_fn c = Some (fn_plateau s) \/
        env_schedule_fn c = Some (fn_step s)) /\
       w_calls (call_schedule_step c metric w).2 =
         w_calls w ++ [CallStep s m]).
Proof.
  split; [| split].
  - intros subset w.
    destruct (fetch_opts ["optimizer"] subset) as [err | opts] eqn:Hfetch.
    { left. unfold optimizer, optimizer_with, bind, call_fetch_opts. by rewrite Hfetch. }
    rewrite (optimizer_fetched _ _ _ Hfetch).
    destruct (py_in (opt_optimizer opts) parse_optimizers) eqn:Hrec;
      cbn [negb]; [| by left].
    apply py_in_In in Hrec.
    destruct (optimizer_table_recognized opts
                (List.filter requires_grad (parameters (w_model w))) Hrec)
      as (c & _ & -> & _).
    right. by exists opts, c.
  - intros subset w. unfold scheduler, bind, call_fetch_opts.
    destruct (fetch_opts ["scheduler"] subset) as [err | opts] eqn:Hfetch;
      [by left |].
    cbn [extern]. unfold call_lr_scheduler.
    destruct (String.eqb (opt_lr_schedule opts) "plateau") eqn:H1.
    { apply String.eqb_eq in H1. right.
      match goal with
      | |- context [lr_scheduler ?call (w_optimizer w)] =>
          exists opts, call;
          destruct (lr_scheduler call (w_optimizer w)) as [[e1 | s] o]
      end; rewrite H1; cbn; by auto. }
    destruct (String.eqb (opt_lr_schedule opts) "step") eqn:H2.
    { apply String.eqb_eq in H2. right.
      match goal with
      | |- context [lr_scheduler ?call (w_optimizer w)] =>
          exists opts, call;
          destruct (lr_scheduler call (w_optimizer w)) as [[e1 | s] o]
      end; rewrite H2; cbn; by auto. }
    left. by destruct (String.eqb (opt_lr_schedule opts) "none").
  - intros c metric w. unfold call_schedule_step, bind.
    pose proof (get_lr_world w) as Hw.
    destruct (get_lr w) as [[current_lr | e] w0]; cbn in Hw; subst w0;
      [| by left].
    assert (Hfn : exists r w1,
      match env_schedule_fn c with
      | Some f => call_schedule_fn f metric
      | None => raise (NameError "schedule_fn")
      end w = (r, w1) /\
      (w_calls w1 = w_calls w \/
       exists s m,
         (env_schedule_fn c = Some (fn_plateau s) \/
          env_schedule_fn c = Some (fn_step s)) /\
         w_calls w1 = w_calls w ++ [CallStep s m])).
    { destruct (env_schedule_fn c) as [[s | s |] |]; cbn [call_schedule_fn];
        unfold call_step;
        try (destruct (scheduler_step s _ (w_optimizer w)) as [r o];
             eexists _, _; split; [done |]; right; eexists _, _; by eauto);
        eexists _, _; by eauto. }
    destruct Hfn as (r & w1 & -> & Hcalls). destruct r as [[] | e]; [| done].
    pose proof (get_lr_world w1) as Hw1.
    destruct (get_lr w1) as [[new_lr | e] w2]; cbn in Hw1; subst w2;
      [| done].
    destruct (py_ne new_lr current_lr); [| done].
    pose proof (subset_name_world (env_subset c) w1) as Hw2.
    destruct (subset_name (env_subset c) w1) as [[name | e] w2];
      cbn in Hw2; subst w2; [| done].
    unfold format_rate. destruct (formats current_lr); [| done].
    by destruct (formats new_lr).
Qed.

(** X10: library failures are passed on as they are.  When the schedule's
    [step] raises, the closure raises the same exception, prints nothing and
    leaves the optimizer as [step] left it; when the constructor of the
    schedule raises, [scheduler] raises the same exception and returns no
    closure. *)
Theorem library_failure_propagates :
  (forall c metric w s m err o,
     env_schedule_fn c = Some (fn_plateau s) /\ m = Some metric \/
     env_schedule_fn c = Some (fn_step s) /\ m = None ->
     has_lr (w_optimizer w) = true ->
     scheduler_step s m (w_optimizer w) = (inl err, o) ->
     (call_schedule_step c metric w).1 = Raise (External err) /\
     w_optimizer (call_schedule_step c metric w).2 = o /\
     w_stdout (call_schedule_step c metric w).2 = w_stdout w) /\
  (forall subset opts w err o,
     fetch_opts ["scheduler"] subset = inr opts ->
     opt_lr_schedule opts = "step" ->
     lr_scheduler (StepLR (opt_lr_step_size opts) (opt_lr_ratio opts))
       (w_optimizer w) = (inl err, o) ->
     (scheduler subset w).1 = Raise (External err) /\
     w_optimizer (scheduler subset w).2 = o).
Proof.
  split.
  - intros c metric w s m err o Hfn [current_lr Hcur]%has_lr_get_lr Hstep.
    unfold call_schedule_step, bind. rewrite Hcur.
    destruct Hfn as [[-> ->] | [-> ->]]; cbn [call_schedule_fn];
      unfold call_step; rewrite Hstep; done.
  - intros subset opts w err o Hfetch Hname Hnew.
    unfold scheduler, bind, call_fetch_opts. rewrite Hfetch. cbn [extern].
    rewrite Hname. eval_eqb. cbv beta iota. unfold call_lr_scheduler.
    by rewrite Hnew.
Qed.

(** *** What the results depend on *)

(** X11: what the checkpointers restore is never falsy by itself: the epoch
    [epoch_checkpointer] returns is truthy, and the learning rate
    [lr_checkpointer] leaves in the first group is truthy or is [opts.lr]. *)
Theorem restored_values_truthy :
  (forall subset w epoch_chkp current_epoch,
     (epoch_checkpointer subset w).1 = Return (epoch_chkp, current_epoch) ->
     truthy current_epoch = true) /\
  (forall subset opts w lr_chkp lr,
     fetch_opts ["general"; "optimizer"] subset = inr opts ->
     (lr_checkpointer subset w).1 = Return lr_chkp ->
     get_lr (lr_checkpointer subset w).2 =
       (Return lr, (lr_checkpointer subset w).2) ->
     truthy lr = true \/ lr = opt_lr opts).
Proof.
  split.
  - intros subset w epoch_chkp current_epoch.
    unfold epoch_checkpointer, bind, call_fetch_opts.
    destruct (fetch_opts ["general"] subset) as [err | opts]; [done |].
    cbn. intros [= _ <-]. unfold py_or.
    by destruct (truthy (default PyNone _)) eqn:Htruthy.
  - intros subset opts w lr_chkp lr Hfetch Hret.
    destruct (param_groups (w_optimizer w) !! 0%nat) as [g |] eqn:Hg.
    2:{ revert Hret. unfold lr_checkpointer, bind, call_fetch_opts.
        rewrite Hfetch. cbn [extern load]. unfold set_lr. by rewrite Hg. }
    unfold get_lr.
    destruct (lr_checkpointer_optimizer subset w) as [_ ->].
    rewrite Hfetch, Hg. cbn [param_groups].
    rewrite list_lookup_insert_eq by (by eapply lookup_lt_Some).
    rewrite lookup_insert_eq. intros [= <-]. unfold py_or.
    destruct (truthy (default PyNone _)) eqn:Htruthy; by auto.
Qed.

(** X12: the optimizer built depends on the options and on the trainable
    parameters only.  In two worlds whose models have the same parameters
    with [requires_grad] true, [optimizer] ends the same way and makes the
    same library call: frozen parameters, the optimizer at hand and the
    checkpoint files play no part. *)
Theorem optimizer_depends_on_grad_params subset w1 w2 :
  List.filter requires_grad (parameters (w_model w1)) =
  List.filter requires_grad (parameters (w_model w2)) ->
  (optimizer subset w1).1 = (optimizer subset w2).1 /\
  exists calls,
    w_calls (optimizer subset w1).2 = w_calls w1 ++ calls /\
    w_calls (optimizer subset w2).2 = w_calls w2 ++ calls.
Proof.
  intros Hsame.
  destruct (fetch_opts ["optimizer"] subset) as [err | opts] eqn:Hfetch.
  { unfold optimizer, optimizer_with, bind, call_fetch_opts. rewrite Hfetch. cbn.
    split; [done |]. exists []. by rewrite !app_nil_r. }
  rewrite !(optimizer_fetched _ _ _ Hfetch), Hsame.
  destruct (negb _).
  { cbn. split; [done |]. exists []. by rewrite !app_nil_r. }
  destruct (List.find _ _) as [[name c] |]; cbn.
  - split; [done |]. by exists [CallOptim c].
  - split; [done |]. exists []. by rewrite !app_nil_r.
Qed.

(** X13: the two checkpoints do not interfere.  The file of the epoch and
    the file of the learning rate differ whatever the experiment names and
    save paths, and two experiment names give two files; so storing a
    learning rate does not change the epoch [epoch_checkpointer] restores,
    and storing an epoch does not change the optimizer [lr_checkpointer]
    leaves. *)
Theorem checkpoints_do_not_interfere :
  (forall opts1 opts2,
     (chk_directory (checkpointer_for "epoch_" opts1),
      chk_name (checkpointer_for "epoch_" opts1)) <>
     (chk_directory (checkpointer_for "lr_" opts2),
      chk_name (checkpointer_for "lr_" opts2))) /\
  (forall opts1 opts2,
     chk_name (checkpointer_for "epoch_" opts1) =
       chk_name (checkpointer_for "epoch_" opts2) \/
     chk_name (checkpointer_for "lr_" opts1) =
       chk_name (checkpointer_for "lr_" opts2) ->
     opt_experiment_name opts1 = opt_experiment_name opts2) /\
  (forall subset opts opts' v w1 w2,
     fetch_opts ["general"] subset = inr opts ->
     w_files w2 =
       <[(chk_directory (checkpointer_for "lr_" opts'),
          chk_name (checkpointer_for "lr_" opts')) := v]> (w_files w1) ->
     (epoch_checkpointer subset w2).1 = (epoch_checkpointer subset w1).1) /\
  (forall subset opts' v w1 w2,
     w_optimizer w2 = w_optimizer w1 ->
     w_files w2 =
       <[(chk_directory (checkpointer_for "epoch_" opts'),
          chk_name (checkpointer_for "epoch_" opts')) := v]> (w_files w1) ->
     w_optimizer (lr_checkpointer subset w2).2 =
       w_optimizer (lr_checkpointer subset w1).2).
Proof.
  assert (Hdiff : forall d1 d2 a b : string,
            (d1, "epoch_" +:+ a) <> (d2, "lr_" +:+ b)).
  { intros d1 d2 a b. cbn. intros [= _ ?]. }
  split; [| split; [| split]].
  - intros opts1 opts2. apply Hdiff.
  - intros opts1 opts2 [Heq | Heq]; cbn in Heq; by injection Heq.
  - intros subset opts opts' v w1 w2 Hfetch Hfiles.
    rewrite !(epoch_checkpointer_run _ _ _ Hfetch). cbn [fst].
    unfold persisted. rewrite Hfiles.
    rewrite lookup_insert_ne; [done |].
    intros Heq. by apply (Hdiff _ _ _ _ (eq_sym Heq)).
  - intros subset opts' v w1 w2 Hopt Hfiles.
    destruct (lr_checkpointer_optimizer subset w1) as [_ ->].
    destruct (lr_checkpointer_optimizer subset w2) as [_ ->].
    rewrite Hopt.
    destruct (fetch_opts ["general"; "optimizer"] subset) as [err | opts];
      [done |].
    destruct (param_groups (w_optimizer w1) !! 0%nat) as [g |]; [| done].
    rewrite Hfiles.
    rewrite lookup_insert_ne; [done |]. apply Hdiff.
Qed.

(** *** The closure after a restore *)

(** X14: the closure reads the optimizer when it is called, not when
    [scheduler] built it.  Called after [lr_checkpointer] (on an optimizer
    with a parameter group, whether or not that group had an ['lr'] entry),
    it finds the restored learning rate: its first read succeeds, and a
    message it prints reports the change from the restored value. *)
Theorem schedule_step_after_restore subset opts c metric w g :
  fetch_opts ["general"; "optimizer"] subset = inr opts ->
  param_groups (w_optimizer w) !! 0%nat = Some g ->
  let lr :=
    py_or (default PyNone (persisted (checkpointer_for "lr_" opts) w))
      (opt_lr opts) in
  let w1 := (lr_checkpointer subset w).2 in
  get_lr w1 = (Return lr, w1) /\
  (forall name current_lr new_lr,
     w_stdout (call_schedule_step c metric w1).2 =
       w_stdout w1 ++ [LrChanged name current_lr new_lr] ->
     current_lr = lr).
Proof.
  intros Hfetch Hg lr w1.
  assert (Hread : get_lr w1 = (Return lr, w1)).
  { unfold get_lr. subst w1.
    destruct (lr_checkpointer_optimizer subset w) as [_ ->].
    rewrite Hfetch, Hg. cbn [param_groups].
    rewrite list_lookup_insert_eq by (by eapply lookup_lt_Some).
    by rewrite lookup_insert_eq. }
  split; [exact Hread |].
  intros name current_lr new_lr. unfold call_schedule_step, bind.
  rewrite Hread.
  assert (Hnil : forall msg, w_stdout w1 = w_stdout w1 ++ [msg] -> False).
  { intros msg Heq. apply (f_equal length) in Heq.
    rewrite length_app in Heq. cbn in Heq. lia. }
  assert (Hfn : exists r w2,
    match env_schedule_fn c with
    | Some f => call_schedule_fn f metric
    | None => raise (NameError "schedule_fn")
    end w1 = (r, w2) /\ w_stdout w2 = w_stdout w1).
  { destruct (env_schedule_fn c) as [f |].
    - pose proof (call_schedule_fn_stdout f metric w1) as Hout.
      destruct (call_schedule_fn f metric w1) as [r w2]. by exists r, w2.
    - by eexists _, _. }
  destruct Hfn as (r & w2 & -> & Hout).
  destruct r as [[] | e]; [| cbn; rewrite Hout; intros []%Hnil].
  pose proof (get_lr_world w2) as Hw2.
  destruct (get_lr w2) as [[new | e] w3]; cbn in Hw2; subst w3;
    [| cbn; rewrite Hout; intros []%Hnil].
  destruct (py_ne new lr); [| cbn; rewrite Hout; intros []%Hnil].
  pose proof (subset_name_world (env_subset c) w2) as Hw3.
  destruct (subset_name (env_subset c) w2) as [[n | e] w3]; cbn in Hw3;
    subst w3; [| cbn; rewrite Hout; intros []%Hnil].
  unfold format_rate.
  destruct (formats lr); [| cbn; rewrite Hout; intros []%Hnil].
  destruct (formats new); [| cbn; rewrite Hout; intros []%Hnil].
  cbn. rewrite Hout. intros Heq%app_inv_head. by injection Heq as _ <- _.
Qed.

End Theory.

(** * The statements at concrete inputs *)

(** ['adam'] with the default options: the table's [Adam] call is made and its optimizer returned. *)
Lemma optimizer_dispatch_witness :
  exists c,
    In ("adam", c)
      (optimizer_table (Demo.opts "adam" "step")
         (List.filter requires_grad (parameters Demo.model))) /\
    (optimizer (Lib := Demo.library (Demo.opts "adam" "step"))
       Demo.no_subset (Demo.world ∅)).1 = Return (Demo.new_optimizer c) /\
    w_calls
      (optimizer (Lib := Demo.library (Demo.opts "adam" "step"))
         Demo.no_subset (Demo.world ∅)).2 = [] ++ [CallOptim c] /\
    (forall o,
       @inr string _ (Demo.new_optimizer c) = inr o ->
       (optimizer (Lib := Demo.library (Demo.opts "adam" "step"))
          Demo.no_subset (Demo.world ∅)).1 = @Return string _ o).
Proof.
  exact (optimizer_dispatch (Lib := Demo.library (Demo.opts "adam" "step"))
           Demo.no_subset (Demo.opts "adam" "step") (Demo.world ∅)
           eq_refl (or_introl eq_refl)).
Defined.

(** ['lbfgs'] is not recognized: the [ValueError], and the world untouched. *)
Lemma optimizer_value_error_witness :
  ~ In "lbfgs" parse_optimizers /\
  optimizer (Lib := Demo.library (Demo.opts "lbfgs" "step"))
    Demo.no_subset (Demo.world ∅) =
    (Raise (ValueError "Optimizer lbfgs not available."), Demo.world ∅).
Proof.
  assert (Hnot : ~ In "lbfgs" parse_optimizers).
  { cbn. intros H. repeat (destruct H as [H | H]; [discriminate H |]).
    exact H. }
  split; [exact Hnot |].
  exact (proj1
           (proj2
              (optimizer_value_error
                 (Lib := Demo.library (Demo.opts "lbfgs" "step"))
                 Demo.no_subset (Demo.opts "lbfgs" "step") (Demo.world ∅)
                 eq_refl)) Hnot).
Defined.

(** ['adam'] is recognized, and on a model whose parameters are all frozen
    the library constructor raises a [ValueError]: [optimizer] raises a
    [ValueError] although the name is in [parse.optimizers]. *)
Lemma optimizer_value_error_counterexample :
  In "adam" parse_optimizers /\
  List.filter requires_grad (parameters (w_model Demo.frozen_world)) = [] /\
  (optimizer (Lib := Demo.checking_library (Demo.opts "adam" "step"))
     Demo.no_subset Demo.frozen_world).1 =
    Raise
      (External
         {| exc_class := "ValueError";
            exc_message := "optimizer got an empty parameter list" |}).
Proof. repeat split; vm_compute; auto. Qed.


(** ['step']: the [StepLR] closure, whose action ignores the metric. *)
Lemma scheduler_dispatch_witness :
  scheduler (Lib := Demo.library (Demo.opts "adam" "step"))
    Demo.no_subset (Demo.world ∅) =
    (Return (Demo.step_closure Demo.no_subset),
     log_call (CallScheduler Demo.step_schedule) (Demo.world ∅)) /\
  call_schedule_fn (Lib := Demo.library (Demo.opts "adam" "step"))
    (fn_step Demo.step_schedule) (PyFloat 1) (Demo.world ∅) =
  call_schedule_fn (Lib := Demo.library (Demo.opts "adam" "step"))
    (fn_step Demo.step_schedule) (PyFloat 2) (Demo.world ∅).
Proof.
  pose proof (scheduler_dispatch
                (Lib := Demo.library (Demo.opts "adam" "step"))
                Demo.no_subset (Demo.opts "adam" "step") (Demo.world ∅)
                eq_refl) as (_ & Hstep & _ & _ & Hfn & _).
  split; [exact (Hstep eq_refl) |].
  exact (eq_trans (Hfn _ (PyFloat 1) _) (eq_sym (Hfn _ (PyFloat 2) _))).
Defined.

(** An unknown [lr_schedule] leaves [schedule_fn] unbound, and the closure
    raises [NameError]; a dict [subset] without ['optimizer'] makes the
    closure raise [KeyError] once the learning rate changes; a learning rate
    persisted as a string makes [lr_checkpointer] raise [ValueError] when it
    formats its message. *)
Lemma module_errors_counterexample :
  (scheduler (Lib := Demo.library (Demo.opts "adam" "cosine"))
     Demo.no_subset (Demo.world ∅)).1 =
    Return {| env_schedule_fn := None; env_subset := Demo.no_subset |} /\
  (call_schedule_step (Lib := Demo.library (Demo.opts "adam" "cosine"))
     {| env_schedule_fn := None; env_subset := Demo.no_subset |}
     (PyFloat 1) (Demo.world ∅)).1 = Raise (NameError "schedule_fn") /\
  (scheduler (Lib := Demo.library (Demo.opts "adam" "step"))
     Demo.scheduler_only (Demo.world ∅)).1 =
    Return (Demo.step_closure Demo.scheduler_only) /\
  (call_schedule_step (Lib := Demo.library (Demo.opts "adam" "step"))
     (Demo.step_closure Demo.scheduler_only) (PyFloat 1) (Demo.world ∅)).1 =
    Raise (KeyError "optimizer") /\
  (lr_checkpointer (Lib := Demo.library (Demo.opts "adam" "step"))
     Demo.no_subset (Demo.world Demo.lr_text)).1 =
    Raise (ValueError "Unknown format code 'e' for object of type 'str'") /\
  is_external (E := string) (NameError "schedule_fn") = false /\
  is_external (E := string) (KeyError "optimizer") = false /\
  is_external (E := string)
    (ValueError "Unknown format code 'e' for object of type 'str'") = false.
Proof. repeat split; vm_compute; reflexivity. Qed.

(** The exceptions met with an unknown optimizer name and with a failing
    library. *)
Lemma module_errors_witness :
  (is_external (E := string) (ValueError "Optimizer lbfgs not available.")
     = true \/
   exists opts,
     fetch_opts (Collaborators := Demo.library (Demo.opts "lbfgs" "step"))
       ["optimizer"] Demo.no_subset = inr opts /\
     ~ In (opt_optimizer opts) parse_optimizers /\
     ValueError "Optimizer lbfgs not available." =
       @ValueError string
         ("Optimizer " +:+ opt_optimizer opts +:+ " not available.")) /\
  (is_Some (env_schedule_fn (Demo.step_closure Demo.no_subset)) /\
   env_subset (Demo.step_closure Demo.no_subset) = Demo.no_subset) /\
  is_external (E := string) (External "step failed") = true /\
  is_external (E := string) (External "no options") = true.
Proof.
  pose proof (module_errors (Lib := Demo.library (Demo.opts "lbfgs" "step")))
    as (Hoptimizer & _).
  pose proof (module_errors (Lib := Demo.library (Demo.opts "adam" "step")))
    as (_ & _ & Hbinds & _).
  pose proof (module_errors (Lib := Demo.failing_library))
    as (_ & _ & _ & Hclosure & _ & Hlr).
  split; [| split; [| split]].
  - exact (Hoptimizer parse_optimizers Demo.no_subset (Demo.world ∅) _
             (fun name Hname => Hname) eq_refl).
  - exact (Hbinds Demo.no_subset (Demo.opts "adam" "step") (Demo.world ∅)
             (Demo.step_closure Demo.no_subset) eq_refl
             (or_intror (or_introl eq_refl)) eq_refl).
  - exact (Hclosure (Demo.step_closure Demo.no_subset) (PyFloat 1)
             (Demo.world ∅) (fn_step Demo.step_schedule) _ eq_refl eq_refl
             eq_refl eq_refl eq_refl).
  - exact (Hlr Demo.no_subset (Demo.world ∅) _ eq_refl
             ltac:(discriminate) ltac:(intros opts H; discriminate H)
             eq_refl).
Defined.

(** A persisted epoch 0 is reported as epoch 1. *)
Lemma epoch_checkpointer_counterexample :
  persisted (checkpointer_for "epoch_" (Demo.opts "adam" "step"))
    (Demo.world Demo.epoch_zero) = Some (PyInt 0) /\
  (epoch_checkpointer (Lib := Demo.library (Demo.opts "adam" "step"))
     Demo.no_subset (Demo.world Demo.epoch_zero)).1 =
    Return (checkpointer_for "epoch_" (Demo.opts "adam" "step"), PyInt 1) /\
  PyInt 1 <> PyInt 0.
Proof. repeat split; [vm_compute; reflexivity .. | discriminate]. Qed.

(** A persisted epoch 7 is restored. *)
Lemma epoch_checkpointer_restores_witness :
  persisted (checkpointer_for "epoch_" (Demo.opts "adam" "step"))
    (Demo.world Demo.epoch_seven) = Some (PyInt 7) /\
  epoch_checkpointer (Lib := Demo.library (Demo.opts "adam" "step"))
    Demo.no_subset (Demo.world Demo.epoch_seven) =
    (Return (checkpointer_for "epoch_" (Demo.opts "adam" "step"), PyInt 7),
     Demo.world Demo.epoch_seven).
Proof.
  split; [reflexivity |].
  destruct (epoch_checkpointer_restores
              (Lib := Demo.library (Demo.opts "adam" "step"))
              Demo.no_subset (Demo.opts "adam" "step")
              (Demo.world Demo.epoch_seven) eq_refl)
    as (current_epoch & Hrun & _ & _ & Htruthy & _).
  rewrite Hrun. rewrite (Htruthy (PyInt 7) eq_refl eq_refl). reflexivity.
Defined.



(** A persisted epoch 0 and a persisted learning rate 0.0. *)
Lemma falsy_checkpoint_falls_back_witness :
  (epoch_checkpointer (Lib := Demo.library (Demo.opts "adam" "step"))
     Demo.no_subset (Demo.world Demo.epoch_zero)).1 =
    Return (checkpointer_for "epoch_" (Demo.opts "adam" "step"), PyInt 1) /\
  param_groups
    (w_optimizer
       (lr_checkpointer (Lib := Demo.library (Demo.opts "adam" "step"))
          Demo.no_subset (Demo.world Demo.lr_zero)).2) =
    <[0%nat := <["lr" := PyFloat (1 # 1000)]> Demo.group0]>
      [Demo.group0; Demo.group1].
Proof.
  pose proof (falsy_checkpoint_falls_back
                (Lib := Demo.library (Demo.opts "adam" "step")))
    as (_ & Hepoch & Hlr).
  split.
  - exact (Hepoch Demo.no_subset (Demo.opts "adam" "step")
             (Demo.world Demo.epoch_zero) (PyInt 0) eq_refl eq_refl eq_refl).
  - exact (Hlr Demo.no_subset (Demo.opts "adam" "step")
             (Demo.world Demo.lr_zero) (PyFloat 0) Demo.group0
             eq_refl eq_refl eq_refl eq_refl).
Defined.

(** [lr_checkpointer] on two groups: the second group and the momentum of the first stay. *)
Lemma module_frame_witness :
  param_groups
    (w_optimizer
       (lr_checkpointer (Lib := Demo.library (Demo.opts "adam" "step"))
          Demo.no_subset (Demo.world Demo.lr_twentieth)).2) !! 1%nat =
    Some Demo.group1 /\
  (forall g',
     param_groups
       (w_optimizer
          (lr_checkpointer (Lib := Demo.library (Demo.opts "adam" "step"))
             Demo.no_subset (Demo.world Demo.lr_twentieth)).2) !! 0%nat =
       Some g' ->
     g' !! "momentum" = Some (PyFloat (9 # 10))) /\
  w_model
    (optimizer (Lib := Demo.library (Demo.opts "adam" "step"))
       Demo.no_subset (Demo.world ∅)).2 = Demo.model.
Proof.
  pose proof (module_frame (Lib := Demo.library (Demo.opts "adam" "step")))
    as (Hoptimizer & Hlr & _).
  destruct (Hlr Demo.no_subset (Demo.world Demo.lr_twentieth))
    as (_ & _ & _ & _ & _ & Hgroups & Hkeys).
  split; [| split].
  - exact (Hgroups 1%nat ltac:(discriminate)).
  - intros g' Hg'.
    exact (Hkeys Demo.group0 g' "momentum" eq_refl Hg' ltac:(discriminate)).
  - exact (proj1 (Hoptimizer Demo.no_subset (Demo.world ∅))).
Defined.



(** * The further statements at concrete inputs *)

(** A parser that raises: [optimizer] and [lr_checkpointer] pass it on. *)
Lemma fetch_opts_failure_propagates_witness :
  optimizer (Lib := Demo.failing_library) Demo.no_subset (Demo.world ∅) =
    (Raise (External "no options"), Demo.world ∅) /\
  lr_checkpointer (Lib := Demo.failing_library) Demo.no_subset
    (Demo.world Demo.lr_twentieth) =
    (Raise (External "no options"), Demo.world Demo.lr_twentieth).
Proof.
  pose proof (fetch_opts_failure_propagates (Lib := Demo.failing_library)
                Demo.no_subset (Demo.world ∅) "no options")
    as (Hoptimizer & _).
  pose proof (fetch_opts_failure_propagates (Lib := Demo.failing_library)
                Demo.no_subset (Demo.world Demo.lr_twentieth) "no options")
    as (_ & _ & _ & Hlr).
  split; [exact (Hoptimizer eq_refl) | exact (Hlr eq_refl)].
Defined.

(** An optimizer without parameter groups. *)
Lemma lr_checkpointer_no_groups_witness :
  lr_checkpointer (Lib := Demo.library (Demo.opts "adam" "step"))
    Demo.no_subset
    (set_optimizer {| param_groups := []; torch_state := 0%nat |}
       (Demo.world Demo.lr_twentieth)) =
    (Raise IndexError,
     set_optimizer {| param_groups := []; torch_state := 0%nat |}
       (Demo.world Demo.lr_twentieth)).
Proof.
  exact (lr_checkpointer_no_groups
           (Lib := Demo.library (Demo.opts "adam" "step")) Demo.no_subset
           (Demo.opts "adam" "step")
           (set_optimizer {| param_groups := []; torch_state := 0%nat |}
              (Demo.world Demo.lr_twentieth))
           eq_refl eq_refl).
Defined.

(** A dict [subset] without ['optimizer']: the rate 0.05 is written, then
    [KeyError]. *)
Lemma lr_checkpointer_unnamed_dict_witness :
  (lr_checkpointer (Lib := Demo.library (Demo.opts "adam" "step"))
     Demo.scheduler_only (Demo.world Demo.lr_twentieth)).1 =
    Raise (KeyError "optimizer") /\
  param_groups
    (w_optimizer
       (lr_checkpointer (Lib := Demo.library (Demo.opts "adam" "step"))
          Demo.scheduler_only (Demo.world Demo.lr_twentieth)).2) =
    <[0%nat := <["lr" := PyFloat (1 # 20)]> Demo.group0]>
      [Demo.group0; Demo.group1] /\
  w_stdout
    (lr_checkpointer (Lib := Demo.library (Demo.opts "adam" "step"))
       Demo.scheduler_only (Demo.world Demo.lr_twentieth)).2 = [].
Proof.
  assert (Hd : ({[ "scheduler" := PyStr "gen" ]} : gmap string pyval)
                 !! "optimizer" = None) by (vm_compute; reflexivity).
  destruct (lr_checkpointer_unnamed_dict
              (Lib := Demo.library (Demo.opts "adam" "step")) _
              (Demo.opts "adam" "step")
              (Demo.world Demo.lr_twentieth) Demo.group0
              eq_refl Hd eq_refl)
    as (Hraise & Hgroups & _ & Hout).
  split; [exact Hraise |]. split; [exact Hgroups | exact Hout].
Defined.

(** ['cosine'] is no schedule the module knows. *)
Lemma scheduler_unknown_schedule_witness :
  scheduler (Lib := Demo.library (Demo.opts "adam" "cosine"))
    Demo.no_subset (Demo.world ∅) =
    (Return {| env_schedule_fn := None; env_subset := Demo.no_subset |},
     Demo.world ∅) /\
  call_schedule_step (Lib := Demo.library (Demo.opts "adam" "cosine"))
    {| env_schedule_fn := None; env_subset := Demo.no_subset |}
    (PyFloat 1) (Demo.world ∅) =
    (Raise (NameError "schedule_fn"), Demo.world ∅).
Proof.
  assert (Hnot : ~ In "cosine" ["plateau"; "step"; "none"]).
  { cbn. intros H. repeat (destruct H as [H | H]; [discriminate H |]).
    exact H. }
  destruct (scheduler_unknown_schedule
              (Lib := Demo.library (Demo.opts "adam" "cosine"))
              Demo.no_subset (Demo.opts "adam" "cosine") (Demo.world ∅)
              eq_refl Hnot)
    as (Hreturn & Hcall).
  split; [exact Hreturn |].
  exact (Hcall (PyFloat 1) (Demo.world ∅) eq_refl).
Defined.

(** No parameter group, and a first group without ['lr']. *)
Lemma schedule_step_unreadable_lr_witness :
  call_schedule_step (Lib := Demo.library (Demo.opts "adam" "step"))
    (Demo.step_closure Demo.no_subset) (PyFloat 1)
    (set_optimizer {| param_groups := []; torch_state := 0%nat |}
       (Demo.world ∅)) =
    (Raise IndexError,
     set_optimizer {| param_groups := []; torch_state := 0%nat |}
       (Demo.world ∅)) /\
  call_schedule_step (Lib := Demo.library (Demo.opts "adam" "step"))
    (Demo.step_closure Demo.no_subset) (PyFloat 1)
    (set_optimizer
       {| param_groups := [ {[ "momentum" := PyFloat (9 # 10) ]} ];
          torch_state := 0%nat |} (Demo.world ∅)) =
    (Raise (KeyError "lr"),
     set_optimizer
       {| param_groups := [ {[ "momentum" := PyFloat (9 # 10) ]} ];
          torch_state := 0%nat |} (Demo.world ∅)).
Proof.
  split.
  - exact (proj1
             (schedule_step_unreadable_lr
                (Lib := Demo.library (Demo.opts "adam" "step"))
                (Demo.step_closure Demo.no_subset) (PyFloat 1)
                (set_optimizer {| param_groups := []; torch_state := 0%nat |}
                   (Demo.world ∅))) eq_refl).
  - assert (Hlr : ({[ "momentum" := PyFloat (9 # 10) ]} : gmap string pyval)
                    !! "lr" = None) by (vm_compute; reflexivity).
    exact (proj2
             (schedule_step_unreadable_lr
                (Lib := Demo.library (Demo.opts "adam" "step"))
                (Demo.step_closure Demo.no_subset) (PyFloat 1)
                (set_optimizer
                   {| param_groups := [ {[ "momentum" := PyFloat (9 # 10) ]} ];
                      torch_state := 0%nat |} (Demo.world ∅)))
             _ eq_refl Hlr).
Defined.

(** A [step] that raises, under the closure for ['step']. *)
Lemma library_failure_propagates_witness :
  (call_schedule_step (Lib := Demo.failing_library)
     (Demo.step_closure Demo.no_subset) (PyFloat 1) (Demo.world ∅)).1 =
    Raise (External "step failed") /\
  w_stdout
    (call_schedule_step (Lib := Demo.failing_library)
       (Demo.step_closure Demo.no_subset) (PyFloat 1) (Demo.world ∅)).2 = [].
Proof.
  destruct (proj1 (library_failure_propagates (Lib := Demo.failing_library))
              (Demo.step_closure Demo.no_subset) (PyFloat 1) (Demo.world ∅)
              Demo.step_schedule None "step failed"
              (w_optimizer (Demo.world ∅))
              (or_intror (conj eq_refl eq_refl)) eq_refl eq_refl)
    as (Hraise & _ & Hout).
  split; [exact Hraise | exact Hout].
Defined.

(** A persisted epoch 7 and a persisted learning rate 0.05 are truthy. *)
Lemma restored_values_truthy_witness :
  truthy (PyInt 7) = true /\
  (truthy (PyFloat (1 # 20)) = true \/
   PyFloat (1 # 20) = opt_lr (Demo.opts "adam" "step")).
Proof.
  pose proof (restored_values_truthy
                (Lib := Demo.library (Demo.opts "adam" "step")))
    as (Hepoch & Hlr).
  split.
  - exact (Hepoch Demo.no_subset (Demo.world Demo.epoch_seven)
             (checkpointer_for "epoch_" (Demo.opts "adam" "step")) (PyInt 7)
             eq_refl).
  - exact (Hlr Demo.no_subset (Demo.opts "adam" "step")
             (Demo.world Demo.lr_twentieth)
             (checkpointer_for "lr_" (Demo.opts "adam" "step"))
             (PyFloat (1 # 20)) eq_refl eq_refl eq_refl).
Defined.

(** The demo model and the same model without its frozen parameter. *)
Lemma optimizer_depends_on_grad_params_witness :
  (optimizer (Lib := Demo.library (Demo.opts "sgd" "none")) Demo.no_subset
     (Demo.world ∅)).1 =
  (optimizer (Lib := Demo.library (Demo.opts "sgd" "none")) Demo.no_subset
     {| w_model :=
          {| parameters :=
               [ {| param_id := 0; requires_grad := true |};
                 {| param_id := 2; requires_grad := true |} ] |};
        w_optimizer := {| param_groups := []; torch_state := 5%nat |};
        w_files := Demo.lr_zero;
        w_stdout := [];
        w_calls := [] |}).1.
Proof.
  exact (proj1
           (optimizer_depends_on_grad_params
              (Lib := Demo.library (Demo.opts "sgd" "none")) Demo.no_subset
              (Demo.world ∅)
              {| w_model :=
                   {| parameters :=
                        [ {| param_id := 0; requires_grad := true |};
                          {| param_id := 2; requires_grad := true |} ] |};
                 w_optimizer := {| param_groups := []; torch_state := 5%nat |};
                 w_files := Demo.lr_zero;
                 w_stdout := [];
                 w_calls := [] |}
              eq_refl)).
Defined.

(** Storing a learning rate next to a persisted epoch 7. *)
Lemma checkpoints_do_not_interfere_witness :
  (epoch_checkpointer (Lib := Demo.library (Demo.opts "adam" "step"))
     Demo.no_subset
     (Demo.world (<[("out", "lr_run") := PyFloat (1 # 20)]> Demo.epoch_seven))).1 =
  (epoch_checkpointer (Lib := Demo.library (Demo.opts "adam" "step"))
     Demo.no_subset (Demo.world Demo.epoch_seven)).1 /\
  w_optimizer
    (lr_checkpointer (Lib := Demo.library (Demo.opts "adam" "step"))
       Demo.no_subset
       (Demo.world (<[("out", "epoch_run") := PyInt 7]> Demo.lr_twentieth))).2 =
  w_optimizer
    (lr_checkpointer (Lib := Demo.library (Demo.opts "adam" "step"))
       Demo.no_subset (Demo.world Demo.lr_twentieth)).2.
Proof.
  pose proof (checkpoints_do_not_interfere
                (Lib := Demo.library (Demo.opts "adam" "step")))
    as (_ & _ & Hepoch & Hlr).
  split.
  - apply (Hepoch Demo.no_subset (Demo.opts "adam" "step")
             (Demo.opts "adam" "step") (PyFloat (1 # 20))); reflexivity.
  - apply (Hlr Demo.no_subset (Demo.opts "adam" "step") (PyInt 7));
      reflexivity.
Defined.

(** The ['step'] closure called after a restore of the rate 0.05. *)
Lemma schedule_step_after_restore_witness :
  w_stdout
    (call_schedule_step (Lib := Demo.library (Demo.opts "adam" "step"))
       (Demo.step_closure Demo.no_subset) (PyFloat 1)
       (lr_checkpointer (Lib := Demo.library (Demo.opts "adam" "step"))
          Demo.no_subset (Demo.world Demo.lr_twentieth)).2).2 =
    w_stdout
      (lr_checkpointer (Lib := Demo.library (Demo.opts "adam" "step"))
         Demo.no_subset (Demo.world Demo.lr_twentieth)).2 ++
      [LrChanged None (PyFloat (1 # 20)) (PyFloat (1 # 200))] /\
  PyFloat (1 # 20) = PyFloat (1 # 20).
Proof.
  split; [reflexivity |].
  exact (proj2
           (schedule_step_after_restore
              (Lib := Demo.library (Demo.opts "adam" "step"))
              Demo.no_subset (Demo.opts "adam" "step")
              (Demo.step_closure Demo.no_subset) (PyFloat 1)
              (Demo.world Demo.lr_twentieth) Demo.group0 eq_refl eq_refl)
           None (PyFloat (1 # 20)) (PyFloat (1 # 200)) eq_refl).
Defined.
